(** * tracktable: property values and their interpolation

    A shallow embedding of [tracktable/Core/PropertyValue.cpp]:
    the visitor [RetrieveUnderlyingType], [property_underlying_type],
    [is_property_null], the visitor [InterpolateProperties] and the two entry
    points [interpolate_property] and [extrapolate_property].

    A C++ [double] is a primitive binary64 float; an [int64_t] and a
    microsecond tick count are integers in [Z]; an exception thrown by
    [boost::get] and the undefined behaviour of an out-of-range
    [static_cast<int64_t>] are explicit outcomes.  Facts about doubles are
    derived from the IEEE 754 specification of the primitive operations
    ([FloatAxioms], [SpecFloat]). *)

From Stdlib Require Import ZArith Bool String Lia.
From Stdlib Require Import Floats.

Set Warnings "-inexact-float".

Local Open Scope Z_scope.

(** ** Data model *)

(** [tracktable::PropertyUnderlyingType], the enumeration the switch
    statements of the source range over. *)
Inductive PropertyUnderlyingType : Set :=
| TYPE_UNKNOWN
| TYPE_REAL
| TYPE_STRING
| TYPE_TIMESTAMP
| TYPE_INTEGER
| TYPE_NULL.

(** [tracktable::NullValue]: an absent value that remembers the type it stands
    in for ([value.ExpectedType] in the stream operator of the source). *)
Record NullValue : Set := Build_NullValue { ExpectedType : PropertyUnderlyingType }.

(** Modelled from the spec: the header declaring [tracktable::Timestamp] and
    [tracktable::Duration] is not part of the sources.  A timestamp is an
    instant counted in whole microseconds, a duration a signed number of
    microseconds ([total_microseconds] and [tracktable::microseconds] convert
    between a duration and its 64-bit count). *)
Definition Timestamp : Set := Z.
Definition Duration : Set := Z.

Definition timestamp_diff (value2 value1 : Timestamp) : Duration := value2 - value1.
Definition total_microseconds (d : Duration) : Z := d.
Definition microseconds (n : Z) : Duration := n.
Definition timestamp_add (value1 : Timestamp) (d : Duration) : Timestamp := value1 + d.

(** [tracktable::PropertyValueT], a [boost::variant] over the null marker, a
    double, a string, a timestamp and (feature-gated) a 64-bit integer. *)
Inductive PropertyValueT : Set :=
| VNull (n : NullValue)
| VReal (d : float)
| VString (s : string)
| VTimestamp (ts : Timestamp)
| VInteger (i : Z).

(** The two preprocessor symbols that guard the [int64_t] overloads.  The
    source spells them differently in the two visitors; which of them is
    defined is decided by the build, outside [PropertyValue.cpp], so both are
    parameters. *)
Record Config : Set := Build_Config {
  PROPERTY_VALUE_INCLUDES_INT : bool;      (* guards InterpolateProperties::operator()(int64_t) *)
  PROPERTY_VALUE_INCLUDES_INTEGER : bool   (* guards RetrieveUnderlyingType::operator()(int64_t) *)
}.

Definition integer_disabled : Config := Build_Config false false.
Definition integer_enabled : Config := Build_Config true true.

(** ** Outcomes of a call *)

Inductive exception : Set := bad_get.

Inductive outcome (A : Type) : Type :=
| Returns (a : A)
| Throws (e : exception)
| Undefined.

Arguments Returns {A} a.
Arguments Throws {A} e.
Arguments Undefined {A}.

Definition bind {A B : Type} (m : outcome A) (k : A -> outcome B) : outcome B :=
  match m with
  | Returns a => k a
  | Throws e => Throws e
  | Undefined => Undefined
  end.

Notation "x <- m ;; k" := (bind m (fun x => k))
  (at level 61, m at next level, right associativity).

(** ** Conversions between [int64_t] and [double] *)

Definition int64_min : Z := - 2 ^ 63.
Definition int64_max : Z := 2 ^ 63 - 1.

(** The implicit conversion of an [int64_t] operand of a floating-point
    operator: the nearest double, ties to even. *)
Definition int64_to_double (z : Z) : float :=
  SF2Prim (binary_normalize prec emax z 0 false).

(** The integer a finite double truncates to (towards zero). *)
Definition truncate (x : spec_float) : option Z :=
  match x with
  | S754_zero _ => Some 0
  | S754_finite s m e => Some (cond_Zopp s (Z.shiftl (Z.pos m) e))
  | S754_infinity _ | S754_nan => None
  end.

(** [static_cast<int64_t>(x)]: the truncation when it is representable; the
    behaviour is undefined otherwise (NaN, infinities, out of range). *)
Definition static_cast_int64 (x : float) : outcome Z :=
  match truncate (Prim2SF x) with
  | Some z => if (int64_min <=? z) && (z <=? int64_max) then Returns z else Undefined
  | None => Undefined
  end.

(** ** [RetrieveUnderlyingType] *)

Module RetrieveUnderlyingType.

Record visitor : Set := Build_visitor { value : PropertyUnderlyingType }.

(** The constructor. *)
Definition new : visitor := Build_visitor TYPE_UNKNOWN.

Definition visit_double (self : visitor) (_ : float) : visitor :=
  Build_visitor TYPE_REAL.

Definition visit_string (self : visitor) (_ : string) : visitor :=
  Build_visitor TYPE_STRING.

Definition visit_Timestamp (self : visitor) (_ : Timestamp) : visitor :=
  Build_visitor TYPE_TIMESTAMP.

Definition visit_int64 (self : visitor) (_ : Z) : visitor :=
  Build_visitor TYPE_INTEGER.

Definition visit_NullValue (self : visitor) (_ : NullValue) : visitor :=
  Build_visitor TYPE_NULL.

(** [boost::apply_visitor]: the overload for the live alternative.  Without
    the guarded [int64_t] overload the one viable overload for an integer
    payload is [operator()(double)], through the implicit conversion. *)
Definition apply_visitor (cfg : Config) (self : visitor) (pv : PropertyValueT) : visitor :=
  match pv with
  | VNull n => visit_NullValue self n
  | VReal d => visit_double self d
  | VString s => visit_string self s
  | VTimestamp ts => visit_Timestamp self ts
  | VInteger i =>
      if PROPERTY_VALUE_INCLUDES_INTEGER cfg then visit_int64 self i
      else visit_double self (int64_to_double i)
  end.

End RetrieveUnderlyingType.

Definition property_underlying_type (cfg : Config) (pv : PropertyValueT)
  : PropertyUnderlyingType :=
  let visitor := RetrieveUnderlyingType.new in
  let visitor := RetrieveUnderlyingType.apply_visitor cfg visitor pv in
  RetrieveUnderlyingType.value visitor.

Definition PropertyUnderlyingType_eqb (a b : PropertyUnderlyingType) : bool :=
  match a, b with
  | TYPE_UNKNOWN, TYPE_UNKNOWN | TYPE_REAL, TYPE_REAL | TYPE_STRING, TYPE_STRING
  | TYPE_TIMESTAMP, TYPE_TIMESTAMP | TYPE_INTEGER, TYPE_INTEGER
  | TYPE_NULL, TYPE_NULL => true
  | _, _ => false
  end.

Definition is_property_null (cfg : Config) (value : PropertyValueT) : bool :=
  PropertyUnderlyingType_eqb (property_underlying_type cfg value) TYPE_NULL.

(** The [default:] branch of the source's switch has no counterpart: the
    enumeration is closed. *)
Definition property_type_as_string (cfg : Config) (p : PropertyValueT) : string :=
  match property_underlying_type cfg p with
  | TYPE_UNKNOWN => "unknown"
  | TYPE_REAL => "real"
  | TYPE_STRING => "string"
  | TYPE_TIMESTAMP => "timestamp"
  | TYPE_INTEGER => "integer"
  | TYPE_NULL => "null"
  end.

(** ** [boost::get<T>] on a variant: the payload, or [bad_get]. *)

Definition get_double (v : PropertyValueT) : outcome float :=
  match v with VReal d => Returns d | _ => Throws bad_get end.

Definition get_int64 (v : PropertyValueT) : outcome Z :=
  match v with VInteger i => Returns i | _ => Throws bad_get end.

Definition get_string (v : PropertyValueT) : outcome string :=
  match v with VString s => Returns s | _ => Throws bad_get end.

Definition get_Timestamp (v : PropertyValueT) : outcome Timestamp :=
  match v with VTimestamp ts => Returns ts | _ => Throws bad_get end.

(** ** [InterpolateProperties] *)

Module InterpolateProperties.

Local Open Scope float_scope.

Record visitor : Set := Build_visitor {
  interpolant : float;
  SecondValue : PropertyValueT
}.

Definition visit_NullValue (self : visitor) (value1 : NullValue)
  : outcome PropertyValueT :=
  if interpolant self <? 0.5 then Returns (VNull value1)
  else Returns (SecondValue self).

Definition visit_double (self : visitor) (value1 : float)
  : outcome PropertyValueT :=
  value2 <- get_double (SecondValue self) ;;
  Returns (VReal ((1 - interpolant self) * value1 + interpolant self * value2)).

Definition visit_int64 (cfg : Config) (self : visitor) (value1 : Z)
  : outcome PropertyValueT :=
  if is_property_null cfg (SecondValue self) then
    Returns (if interpolant self <? 0.5 then VInteger value1 else SecondValue self)
  else
    value2 <- get_int64 (SecondValue self) ;;
    result <- static_cast_int64
                ((1 - interpolant self) * int64_to_double value1
                 + (interpolant self + int64_to_double value2)) ;;
    Returns (VInteger result).

Definition visit_string (cfg : Config) (self : visitor) (value1 : string)
  : outcome PropertyValueT :=
  if is_property_null cfg (SecondValue self) then
    Returns (if interpolant self <? 0.5 then VString value1 else SecondValue self)
  else
    value2 <- get_string (SecondValue self) ;;
    if interpolant self <? 0.5 then Returns (VString value1)
    else Returns (VString value2).

Definition visit_Timestamp (cfg : Config) (self : visitor) (value1 : Timestamp)
  : outcome PropertyValueT :=
  if is_property_null cfg (SecondValue self) then
    Returns (if interpolant self <? 0.5 then VTimestamp value1 else SecondValue self)
  else
    value2 <- get_Timestamp (SecondValue self) ;;
    let delta_t := timestamp_diff value2 value1 in
    microseconds_ <- static_cast_int64
                       (int64_to_double (total_microseconds delta_t)
                        * interpolant self) ;;
    let interpolated_delta_t := microseconds microseconds_ in
    Returns (VTimestamp (timestamp_add value1 interpolated_delta_t)).

(** [boost::apply_visitor(calculator, first)].  Without the guarded
    [int64_t] overload an integer payload reaches [operator()(double)]. *)
Definition apply_visitor (cfg : Config) (self : visitor) (first : PropertyValueT)
  : outcome PropertyValueT :=
  match first with
  | VNull n => visit_NullValue self n
  | VReal d => visit_double self d
  | VString s => visit_string cfg self s
  | VTimestamp ts => visit_Timestamp cfg self ts
  | VInteger i =>
      if PROPERTY_VALUE_INCLUDES_INT cfg then visit_int64 cfg self i
      else visit_double self (int64_to_double i)
  end.

End InterpolateProperties.

(** ** [tracktable::algorithms] *)

Definition interpolate_property (cfg : Config)
  (first second : PropertyValueT) (t : float) : outcome PropertyValueT :=
  if (t <=? 0)%float then Returns first
  else if (1 <=? t)%float then Returns second
  else
    let calculator := InterpolateProperties.Build_visitor t second in
    InterpolateProperties.apply_visitor cfg calculator first.

Definition extrapolate_property (cfg : Config)
  (first second : PropertyValueT) (t : float) : outcome PropertyValueT :=
  let calculator := InterpolateProperties.Build_visitor t second in
  InterpolateProperties.apply_visitor cfg calculator first.

(** ** The spec's vocabulary *)

(** The snap rule: one endpoint unchanged, chosen at the midpoint. *)
Definition snap (t : float) (first second : PropertyValueT) : PropertyValueT :=
  if (t <? 0.5)%float then first else second.

(** The standard linear blend of two doubles. *)
Definition linear_blend (t a b : float) : float := ((1 - t) * a + t * b)%float.

(** The integer feature is configured consistently: an integer that the tag
    visitor reports as [TYPE_INTEGER] has its own interpolation overload. *)
Definition feature_consistent (cfg : Config) : Prop :=
  PROPERTY_VALUE_INCLUDES_INTEGER cfg = true ->
  PROPERTY_VALUE_INCLUDES_INT cfg = true.

(** The magnitude of a double is at most [2 ^ K]. *)
Definition magnitude_le (K : Z) (x : spec_float) : Prop :=
  match x with
  | S754_zero _ => True
  | S754_finite _ m e => e <= K /\ Z.pos m <= 2 ^ (K - e)
  | S754_infinity _ | S754_nan => False
  end.

(** A range that contains every instant a [boost::posix_time::ptime] can hold
    (years 1400 to 9999: fewer than 2^59 microseconds from the origin of the
    day count, and from 1970); the difference of two such instants fits an
    [int64_t]. *)
Definition Timestamp_in_range (ts : Timestamp) : Prop :=
  - 2 ^ 60 <= ts <= 2 ^ 60.

(** The spec's truncation to a whole number: the integer part of
    [(-1)^s * m * 2^e], rounded towards zero. *)
Definition integer_part (s : bool) (m : positive) (e : Z) : Z :=
  Z.quot (cond_Zopp s (Z.pos m) * 2 ^ Z.max e 0) (2 ^ Z.max (- e) 0).

(** ** The stream operator of [NullValue] *)

(** A [std::ostream], as far as the operator is concerned: the characters
    written to it so far.  Inserting a string appends it. *)
Definition ostream : Set := string.

Definition insert_string (out : ostream) (s : string) : ostream := (out ++ s)%string.

(** What the [switch] of the operator can find in [value.ExpectedType]: one
    of the six enumerators, or a value that is none of them (an object of
    enumeration type holds one after a cast from an integer).  The second
    case is what the [default:] label catches. *)
Inductive ExpectedType_object : Set :=
| enumerator (tag : PropertyUnderlyingType)
| not_an_enumerator.

(** The body of
    [std::ostream& operator<<(std::ostream& out, NullValue const& value)],
    on the object found in [value.ExpectedType]: the text is assembled in a
    buffer of its own and written to [out] in one piece. *)
Definition operator_lshift_ExpectedType (out : ostream) (expected : ExpectedType_object)
  : ostream :=
  let outbuf : ostream := EmptyString in
  let outbuf := insert_string outbuf "(null " in
  let outbuf :=
    match expected with
    | enumerator TYPE_UNKNOWN => insert_string outbuf "unknown"
    | enumerator TYPE_REAL => insert_string outbuf "real"
    | enumerator TYPE_STRING => insert_string outbuf "string"
    | enumerator TYPE_TIMESTAMP => insert_string outbuf "timestamp"
    | enumerator TYPE_INTEGER => insert_string outbuf "integer"
    | enumerator TYPE_NULL => insert_string outbuf "null"
    | not_an_enumerator => insert_string outbuf "unsupported"
    end in
  let outbuf := insert_string outbuf ")" in
  insert_string out outbuf.

(** The operator on a [NullValue] whose [ExpectedType] is an enumerator, as
    every typed null of the data model above is. *)
Definition operator_lshift_NullValue (out : ostream) (value : NullValue) : ostream :=
  operator_lshift_ExpectedType out (enumerator (ExpectedType value)).

(** ** The templates [dispatch_interpolate] and [dispatch_extrapolate] *)

(** The template argument [value_type], over the alternatives every build of
    the variant has. *)
Inductive value_type : Set := vt_NullValue | vt_double | vt_string | vt_Timestamp.

Definition payload (T : value_type) : Set :=
  match T with
  | vt_NullValue => NullValue
  | vt_double => float
  | vt_string => string
  | vt_Timestamp => Timestamp
  end.

(** [boost::get<value_type>(&v)]: a pointer to the payload, null when [v]
    holds another alternative. *)
Definition get_pointer (T : value_type) (v : PropertyValueT) : option (payload T) :=
  match T as T' return option (payload T') with
  | vt_NullValue => match v with VNull n => Some n | _ => None end
  | vt_double => match v with VReal d => Some d | _ => None end
  | vt_string => match v with VString s => Some s | _ => None end
  | vt_Timestamp => match v with VTimestamp ts => Some ts | _ => None end
  end.

(** [*p]: dereferencing a null pointer is undefined. *)
Definition dereference {A : Type} (p : option A) : outcome A :=
  match p with
  | Some a => Returns a
  | None => Undefined
  end.

(** [tracktable::PropertyValueT(result)]. *)
Definition construct (T : value_type) : payload T -> PropertyValueT :=
  match T as T' return payload T' -> PropertyValueT with
  | vt_NullValue => VNull
  | vt_double => VReal
  | vt_string => VString
  | vt_Timestamp => VTimestamp
  end.

Section Dispatch.

(** [tracktable::interpolate<value_type>] and
    [tracktable::extrapolate<value_type>] are declared outside the sources;
    they are parameters, free to return or to fail. *)
Variable interpolate : forall T : value_type, payload T -> payload T -> float -> outcome (payload T).
Variable extrapolate : forall T : value_type, payload T -> payload T -> float -> outcome (payload T).

Variable cfg : Config.

Definition dispatch_interpolate_apply (T : value_type)
  (first second : PropertyValueT) (interpolant : float) : outcome PropertyValueT :=
  if is_property_null cfg first && (interpolant <? 0.5)%float then Returns first
  else if is_property_null cfg second && (0.5 <? interpolant)%float then Returns second
  else
    let first_value := get_pointer T first in
    let second_value := get_pointer T second in
    a <- dereference first_value ;;
    b <- dereference second_value ;;
    result <- interpolate T a b interpolant ;;
    Returns (construct T result).

Definition dispatch_extrapolate_apply (T : value_type)
  (first second : PropertyValueT) (interpolant : float) : outcome PropertyValueT :=
  let first_value := get_pointer T first in
  let second_value := get_pointer T second in
  a <- dereference first_value ;;
  b <- dereference second_value ;;
  result <- extrapolate T a b interpolant ;;
  Returns (construct T result).

End Dispatch.

(** ** Vocabulary of the further properties *)

(** [boost::variant::which()]: the index of the live alternative. *)
Definition which (v : PropertyValueT) : nat :=
  match v with
  | VNull _ => 0
  | VReal _ => 1
  | VString _ => 2
  | VTimestamp _ => 3
  | VInteger _ => 4
  end.

(** A double that is zero, or has sign [s] and magnitude at most the integer
    [d], with no exponent above zero. *)
Definition bounded_by (s : bool) (d : Z) (x : spec_float) : Prop :=
  match x with
  | S754_zero _ => True
  | S754_finite s' m e => s' = s /\ e <= 0 /\ Z.pos m <= d * 2 ^ (- e)
  | S754_infinity _ | S754_nan => False
  end.

(** The distance of two timestamps is an integer a double holds exactly
    (about 285 years in microseconds). *)
Definition exact_gap (value1 value2 : Timestamp) : Prop :=
  Z.abs (value2 - value1) < 2 ^ 53.

(** ** Comparisons of doubles *)

Section Comparisons.

Local Open Scope float_scope.

Lemma SFcompare_antisym (x y : spec_float) :
  SFcompare y x = option_map CompOpp (SFcompare x y).
Proof.
  destruct x as [sx | sx | | sx mx ex], y as [sy | sy | | sy my ey];
    simpl; try reflexivity;
    try (destruct sx; reflexivity);
    try (destruct sy; reflexivity);
    try (destruct sx, sy; reflexivity).
  assert (Hm : Pos.compare_cont Eq my mx = CompOpp (Pos.compare_cont Eq mx my))
    by (symmetry; apply (Pos.compare_cont_antisym mx my Eq)).
  rewrite (Z.compare_antisym ex ey), Hm.
  destruct sx, sy; simpl; try reflexivity;
    destruct (ex ?= ey)%Z; simpl; try reflexivity;
    now rewrite ?CompOpp_involutive.
Qed.

Lemma ltb_leb_false (x y : float) : (x <? y) = true -> (y <=? x) = false.
Proof.
  rewrite ltb_spec, leb_spec. unfold SFltb, SFleb.
  rewrite (SFcompare_antisym (Prim2SF x) (Prim2SF y)).
  destruct (SFcompare (Prim2SF x) (Prim2SF y)) as [[ | | ] | ]; simpl;
    congruence.
Qed.

Lemma Prim2SF_zero : Prim2SF 0 = S754_zero false.
Proof. vm_compute. reflexivity. Qed.

Lemma Prim2SF_one : Prim2SF 1 = S754_finite false 4503599627370496 (-52).
Proof. vm_compute. reflexivity. Qed.

Lemma Prim2SF_half : Prim2SF 0.5 = S754_finite false 4503599627370496 (-53).
Proof. vm_compute. reflexivity. Qed.

Lemma leb_one_leb_zero_false (t : float) : (1 <=? t) = true -> (t <=? 0) = false.
Proof.
  rewrite !leb_spec, Prim2SF_zero, Prim2SF_one. unfold SFleb.
  destruct (Prim2SF t) as [s | s | | s m e]; simpl; try congruence.
  - destruct s; congruence.
  - destruct s; simpl; congruence.
Qed.

(** Strictly inside the unit interval neither boundary shortcut fires. *)
Lemma interior_no_shortcut (t : float) :
  (0 <? t) = true -> (t <? 1) = true ->
  (t <=? 0) = false /\ (1 <=? t) = false.
Proof. intros H0 H1. split; now apply ltb_leb_false. Qed.

End Comparisons.

(** ** Binary64 rounding

    Facts about the IEEE 754 specification of the Standard Library
    ([SpecFloat]) at precision 53, as far as the conversions and products of
    the interpolator need them. *)

Section Binary64.

Lemma digits2_pos_bounds (m : positive) :
  2 ^ (Z.pos (digits2_pos m) - 1) <= Z.pos m < 2 ^ Z.pos (digits2_pos m).
Proof.
  induction m as [p IH | p IH | ]; simpl digits2_pos.
  - rewrite Pos2Z.inj_succ. change (Z.pos p~1) with (2 * Z.pos p + 1).
    replace (Z.succ (Z.pos (digits2_pos p)) - 1)
      with (Z.succ (Z.pos (digits2_pos p) - 1)) by lia.
    rewrite !Z.pow_succ_r by lia.
    destruct IH as [IH1 IH2]. revert IH1 IH2.
    generalize (2 ^ (Z.pos (digits2_pos p) - 1)) (2 ^ Z.pos (digits2_pos p)).
    intros; lia.
  - rewrite Pos2Z.inj_succ. change (Z.pos p~0) with (2 * Z.pos p).
    replace (Z.succ (Z.pos (digits2_pos p)) - 1)
      with (Z.succ (Z.pos (digits2_pos p) - 1)) by lia.
    rewrite !Z.pow_succ_r by lia.
    destruct IH as [IH1 IH2]. revert IH1 IH2.
    generalize (2 ^ (Z.pos (digits2_pos p) - 1)) (2 ^ Z.pos (digits2_pos p)).
    intros; lia.
  - change (1 <= 1 < 2). lia.
Qed.

(** The number of binary digits is determined by the enclosing powers. *)
Lemma digits2_pos_unique (m : positive) (n : Z) :
  2 ^ (n - 1) <= Z.pos m < 2 ^ n -> Z.pos (digits2_pos m) = n.
Proof.
  intros [Hlo Hhi]. pose proof (digits2_pos_bounds m) as [Dlo Dhi].
  assert (0 < n).
  { destruct (Z_lt_le_dec 0 n) as [ | Hn ]; [ assumption | ].
    exfalso. destruct (Z.eq_dec n 0) as [-> | ]; [ simpl in Hhi; lia | ].
    rewrite Z.pow_neg_r in Hhi by lia. lia. }
  destruct (Z_lt_le_dec (Z.pos (digits2_pos m)) n) as [Hlt | Hge].
  - exfalso.
    assert (2 ^ Z.pos (digits2_pos m) <= 2 ^ (n - 1))
      by (apply Z.pow_le_mono_r; lia).
    lia.
  - destruct (Z_lt_le_dec n (Z.pos (digits2_pos m))) as [Hlt | Hge']; [ | lia ].
    exfalso.
    assert (2 ^ n <= 2 ^ (Z.pos (digits2_pos m) - 1))
      by (apply Z.pow_le_mono_r; lia).
    lia.
Qed.

Lemma shr_1_m (mrs : shr_record) :
  0 <= shr_m mrs -> shr_m (shr_1 mrs) = shr_m mrs / 2 /\ 0 <= shr_m (shr_1 mrs).
Proof.
  destruct mrs as [m r s]. simpl. intros Hm.
  destruct m as [ | [p | p | ] | p ]; simpl.
  - split; [ reflexivity | lia ].
  - change (Z.pos p~1) with (2 * Z.pos p + 1). split; [ | lia ].
    apply (Z.div_unique _ 2 _ 1); lia.
  - change (Z.pos p~0) with (2 * Z.pos p). split; [ | lia ].
    apply (Z.div_unique _ 2 _ 0); lia.
  - split; [ reflexivity | lia ].
  - lia.
Qed.

Lemma iter_pos_shr_1_m (p : positive) :
  forall mrs : shr_record,
    0 <= shr_m mrs ->
    shr_m (iter_pos shr_1 p mrs) = shr_m mrs / 2 ^ Z.pos p
    /\ 0 <= shr_m (iter_pos shr_1 p mrs).
Proof.
  induction p as [p IH | p IH | ]; intros mrs Hm; simpl iter_pos.
  - destruct (shr_1_m mrs Hm) as [E1 P1].
    destruct (IH _ P1) as [E2 P2]. destruct (IH _ P2) as [E3 P3].
    split; [ | assumption ].
    rewrite E3, E2, E1, !Z.div_div by lia.
    f_equal. change (Z.pos p~1) with (2 * Z.pos p + 1).
    replace (2 * Z.pos p + 1) with (1 + Z.pos p + Z.pos p) by lia.
    rewrite !Z.pow_add_r by lia. simpl (2 ^ 1). lia.
  - destruct (IH _ Hm) as [E2 P2]. destruct (IH _ P2) as [E3 P3].
    split; [ | assumption ].
    rewrite E3, E2, !Z.div_div by lia.
    f_equal. change (Z.pos p~0) with (2 * Z.pos p).
    replace (2 * Z.pos p) with (Z.pos p + Z.pos p) by lia.
    rewrite !Z.pow_add_r by lia. lia.
  - destruct (shr_1_m mrs Hm) as [E1 P1]. split; [ | assumption ].
    rewrite E1. reflexivity.
Qed.

(** A right shift divides the mantissa and never lowers the exponent. *)
Lemma shr_m_e (mrs : shr_record) (e n : Z) :
  0 <= shr_m mrs ->
  let '(mrs', e') := shr mrs e n in
  e' = e + Z.max n 0
  /\ shr_m mrs' = shr_m mrs / 2 ^ (e' - e)
  /\ 0 <= shr_m mrs'.
Proof.
  intros Hm. unfold shr. destruct n as [ | p | p ].
  - rewrite Z.max_r, Z.add_0_r, Z.sub_diag by lia. simpl. rewrite Z.div_1_r. auto.
  - destruct (iter_pos_shr_1_m p mrs Hm) as [E P].
    rewrite Z.max_l by lia. replace (e + Z.pos p - e) with (Z.pos p) by lia. auto.
  - rewrite Z.max_r, Z.add_0_r, Z.sub_diag by lia. simpl. rewrite Z.div_1_r. auto.
Qed.

Lemma round_nearest_even_bounds (mx : Z) (lx : location) :
  mx <= round_nearest_even mx lx <= mx + 1.
Proof.
  destruct lx as [ | [ | | ] ]; simpl; try lia.
  destruct (Z.even mx); lia.
Qed.

Lemma fexp_binary64 (e : Z) : fexp prec emax e = Z.max (e - 53) (-1074).
Proof. reflexivity. Qed.

Lemma iter_xO_spec (k : positive) :
  forall m : positive,
    Z.pos (Pos.iter xO m k) = Z.pos m * 2 ^ Z.pos k
    /\ Z.pos (digits2_pos (Pos.iter xO m k)) = Z.pos (digits2_pos m) + Z.pos k.
Proof.
  induction k as [k IH | k IH | ]; intros m; simpl Pos.iter.
  - destruct (IH m) as [V1 D1]. destruct (IH (Pos.iter xO m k)) as [V2 D2].
    simpl digits2_pos. rewrite Pos2Z.inj_succ.
    change (Z.pos (Pos.iter xO (Pos.iter xO m k) k)~0)
      with (2 * Z.pos (Pos.iter xO (Pos.iter xO m k) k)).
    rewrite V2, V1, D2, D1. change (Z.pos k~1) with (2 * Z.pos k + 1).
    replace (2 * Z.pos k + 1) with (Z.pos k + Z.pos k + 1) by lia.
    rewrite !Z.pow_add_r by lia. change (2 ^ 1) with 2. split; lia.
  - destruct (IH m) as [V1 D1]. destruct (IH (Pos.iter xO m k)) as [V2 D2].
    rewrite V2, V1, D2, D1. change (Z.pos k~0) with (2 * Z.pos k).
    replace (2 * Z.pos k) with (Z.pos k + Z.pos k) by lia.
    rewrite !Z.pow_add_r by lia. split; lia.
  - simpl digits2_pos. rewrite Pos2Z.inj_succ.
    change (Z.pos m~0) with (2 * Z.pos m). change (2 ^ 1) with 2. split; lia.
Qed.

(** Shifting out the zeros a left shift put in loses nothing. *)
Lemma iter_pos_shr_1_iter_xO (k : positive) :
  forall m : positive,
    iter_pos shr_1 k (Build_shr_record (Z.pos (Pos.iter xO m k)) false false)
    = Build_shr_record (Z.pos m) false false.
Proof.
  induction k as [k IH | k IH | ]; intros m; simpl Pos.iter; simpl iter_pos.
  - change (shr_1 {| shr_m := Z.pos (Pos.iter xO (Pos.iter xO m k) k)~0;
                     shr_r := false; shr_s := false |})
      with (Build_shr_record (Z.pos (Pos.iter xO (Pos.iter xO m k) k)) false false).
    now rewrite !IH.
  - now rewrite !IH.
  - reflexivity.
Qed.

Lemma shr_fexp_noshift (m : positive) (e : Z) :
  Z.pos (digits2_pos m) <= 53 -> -1074 <= e ->
  shr_fexp prec emax (Z.pos m) e loc_Exact
  = (Build_shr_record (Z.pos m) false false, e).
Proof.
  intros Hd He. unfold shr_fexp. rewrite fexp_binary64. simpl Zdigits2.
  unfold shr.
  destruct (Z.max (Z.pos (digits2_pos m) + e - 53) (-1074) - e) eqn:E;
    try reflexivity.
  lia.
Qed.

Lemma shr_fexp_exact (m k : positive) (e : Z) :
  Z.pos (digits2_pos m) = 53 -> -1074 <= e + Z.pos k ->
  shr_fexp prec emax (Z.pos (Pos.iter xO m k)) e loc_Exact
  = (Build_shr_record (Z.pos m) false false, e + Z.pos k).
Proof.
  intros Hd He. unfold shr_fexp. rewrite fexp_binary64. simpl Zdigits2.
  destruct (iter_xO_spec k m) as [_ D]. rewrite D, Hd.
  replace (Z.max (53 + Z.pos k + e - 53) (-1074) - e) with (Z.pos k) by lia.
  unfold shr. simpl shr_record_of_loc. now rewrite iter_pos_shr_1_iter_xO.
Qed.

(** A mantissa that already fits is left alone by the rounding. *)
Lemma binary_round_aux_noshift (s : bool) (m : positive) (e : Z) :
  Z.pos (digits2_pos m) <= 53 -> -1074 <= e <= 971 ->
  binary_round_aux prec emax s (Z.pos m) e loc_Exact = S754_finite s m e.
Proof.
  intros Hd He. unfold binary_round_aux.
  rewrite (shr_fexp_noshift m e Hd) by lia. simpl.
  rewrite (shr_fexp_noshift m e Hd) by lia. simpl.
  destruct (Z.leb_spec e 971); [ reflexivity | lia ].
Qed.

Lemma binary_round_aux_exact (s : bool) (m k : positive) (e : Z) :
  Z.pos (digits2_pos m) = 53 -> -1074 <= e + Z.pos k <= 971 ->
  binary_round_aux prec emax s (Z.pos (Pos.iter xO m k)) e loc_Exact
  = S754_finite s m (e + Z.pos k).
Proof.
  intros Hd He. unfold binary_round_aux.
  rewrite (shr_fexp_exact m k e Hd) by lia. simpl.
  rewrite (shr_fexp_noshift m (e + Z.pos k)) by lia. simpl.
  destruct (Z.leb_spec (e + Z.pos k) 971); [ reflexivity | lia ].
Qed.

(** The double nearest to a non-zero integer of at most 64 bits: a 53-bit
    mantissa, exact below 2^53 and within one unit in the last place above. *)
Lemma binary_round_integer (s : bool) (p : positive) :
  Z.pos p < 2 ^ 64 ->
  exists (m : positive) (e : Z),
    binary_round prec emax s p 0 = S754_finite s m e
    /\ Z.pos (digits2_pos m) = 53
    /\ -52 <= e <= 12
    /\ ((e <= 0 /\ Z.pos m = Z.pos p * 2 ^ (- e))
        \/ (0 < e /\ (Z.pos m - 1) * 2 ^ e <= Z.pos p
            /\ Z.pos m * 2 ^ e <= Z.pos p + 2 ^ e)).
Proof.
  intros Hp. pose proof (digits2_pos_bounds p) as [Dlo Dhi].
  set (d := Z.pos (digits2_pos p)) in *.
  assert (Hd : 1 <= d <= 64).
  { split; [ unfold d; lia | ].
    destruct (Z_lt_le_dec 64 d) as [Hgt | ]; [ exfalso | assumption ].
    assert (2 ^ 64 <= 2 ^ (d - 1)) by (apply Z.pow_le_mono_r; lia). lia. }
  unfold binary_round. rewrite fexp_binary64. fold d. unfold shl_align.
  destruct (Z.max (d + 0 - 53) (-1074) - 0) as [ | k | k ] eqn:Ek.
  - (* exactly 53 digits *)
    exists p, 0. rewrite binary_round_aux_noshift by (fold d; lia).
    repeat split; lia.
  - (* more than 53 digits: the low [k] bits are rounded away *)
    assert (Hk : Z.pos k = d - 53) by lia.
    unfold binary_round_aux.
    pose proof (shr_m_e (shr_record_of_loc (Z.pos p) loc_Exact) 0
                  (fexp prec emax (Zdigits2 (Z.pos p) + 0) - 0)) as Hshr.
    fold (shr_fexp prec emax (Z.pos p) 0 loc_Exact) in Hshr.
    destruct (shr_fexp prec emax (Z.pos p) 0 loc_Exact) as [mrs' e'].
    destruct Hshr as [He' [Hq _]]; [ simpl; lia | ].
    rewrite fexp_binary64 in He'. simpl Zdigits2 in He'. fold d in He'.
    assert (He : e' = Z.pos k) by lia. clear He'. subst e'.
    simpl shr_m in Hq. rewrite Z.sub_0_r in Hq.
    pose proof (round_nearest_even_bounds (shr_m mrs') (loc_of_shr_record mrs'))
      as Hrne.
    set (m1 := round_nearest_even (shr_m mrs') (loc_of_shr_record mrs')) in *.
    rewrite Hq in Hrne. clear Hq.
    assert (HP : 0 < 2 ^ Z.pos k) by (apply Z.pow_pos_nonneg; lia).
    assert (Hlo : 2 ^ (d - 1) = 2 ^ Z.pos k * 2 ^ 52)
      by (rewrite <- Z.pow_add_r by lia; f_equal; lia).
    assert (Hhi : 2 ^ d = 2 ^ Z.pos k * 2 ^ 53)
      by (rewrite <- Z.pow_add_r by lia; f_equal; lia).
    assert (Hq1 : 2 ^ 52 <= Z.pos p / 2 ^ Z.pos k)
      by (apply Z.div_le_lower_bound; lia).
    assert (Hq2 : Z.pos p / 2 ^ Z.pos k < 2 ^ 53)
      by (apply Z.div_lt_upper_bound; lia).
    pose proof (Z.mul_div_le (Z.pos p) (2 ^ Z.pos k) HP) as Hq3.
    revert Hq1 Hq2 Hq3 Hrne.
    generalize (Z.pos p / 2 ^ Z.pos k). intros q Hq1 Hq2 Hq3 Hrne.
    destruct m1 as [ | m1 | m1 ]; try lia.
    destruct (Z.eq_dec (Z.pos m1) (2 ^ 53)) as [Etop | Ntop].
    + (* the round-up reached 2^53: one more shift *)
      assert (m1 = Pos.iter xO 4503599627370496%positive 1)
        by (apply Pos2Z.inj; rewrite Etop; reflexivity).
      subst m1.
      rewrite (shr_fexp_exact 4503599627370496 1 (Z.pos k)) by (try reflexivity; lia).
      simpl shr_m.
      destruct (Z.leb_spec (Z.pos k + 1) (emax - prec)) as [ _ | Hbad ];
        [ | unfold emax, prec in Hbad; lia ].
      exists 4503599627370496%positive, (Z.pos k + 1).
      split; [ reflexivity | ]. split; [ reflexivity | ].
      split; [ lia | ]. right.
      rewrite Z.pow_add_r by lia. change (2 ^ 1) with 2.
      change (2 ^ 53) with 9007199254740992 in *.
      change (2 ^ 52) with 4503599627370496 in *.
      repeat split; nia.
    + assert (Hm1 : Z.pos (digits2_pos m1) = 53)
        by (apply digits2_pos_unique; simpl (53 - 1); lia).
      rewrite (shr_fexp_noshift m1 (Z.pos k)) by lia. simpl shr_m.
      destruct (Z.leb_spec (Z.pos k) (emax - prec)) as [ _ | Hbad ];
        [ | unfold emax, prec in Hbad; lia ].
      exists m1, (Z.pos k). split; [ reflexivity | ]. split; [ assumption | ].
      split; [ lia | ]. right. repeat split; nia.
  - (* fewer than 53 digits: aligned to the left, exactly *)
    assert (Hk : Z.pos k = 53 - d) by lia.
    destruct (iter_xO_spec k p) as [V D]. fold d in D.
    rewrite binary_round_aux_noshift by lia.
    exists (Pos.iter xO p k), (Z.max (d + 0 - 53) (-1074)).
    split; [ reflexivity | ]. split; [ lia | ]. split; [ lia | ]. left.
    split; [ lia | ]. rewrite V. f_equal. f_equal. lia.
Qed.

Lemma div_succ_mul_pow2 (M d k : Z) :
  0 <= M < 2 ^ d -> 0 <= d -> 0 <= k ->
  (M / 2 ^ k + 1) * 2 ^ k <= 2 ^ Z.max d k.
Proof.
  intros HM Hd Hk.
  assert (HP : 0 < 2 ^ k) by (apply Z.pow_pos_nonneg; lia).
  destruct (Z_le_gt_dec k d) as [Hle | Hgt].
  - rewrite Z.max_l by lia.
    assert (E : 2 ^ d = 2 ^ k * 2 ^ (d - k))
      by (rewrite <- Z.pow_add_r by lia; f_equal; lia).
    assert (M / 2 ^ k < 2 ^ (d - k)) by (apply Z.div_lt_upper_bound; lia).
    rewrite E. nia.
  - rewrite Z.max_r by lia.
    assert (2 ^ d <= 2 ^ k) by (apply Z.pow_le_mono_r; lia).
    rewrite Z.div_small by lia. lia.
Qed.

(** Rounding does not carry a value past the power of two above it. *)
Lemma binary_round_aux_magnitude (s : bool) (M : positive) (E K : Z) :
  Z.pos (digits2_pos M) + E <= K -> 0 <= K <= 971 ->
  magnitude_le K (binary_round_aux prec emax s (Z.pos M) E loc_Exact).
Proof.
  intros HK HK'. pose proof (digits2_pos_bounds M) as [_ Dhi].
  set (d := Z.pos (digits2_pos M)) in *.
  assert (Hd : 1 <= d) by (unfold d; lia).
  unfold binary_round_aux.
  pose proof (shr_m_e (shr_record_of_loc (Z.pos M) loc_Exact) E
                (fexp prec emax (Zdigits2 (Z.pos M) + E) - E)) as Hshr.
  fold (shr_fexp prec emax (Z.pos M) E loc_Exact) in Hshr.
  destruct (shr_fexp prec emax (Z.pos M) E loc_Exact) as [mrs' e'].
  destruct Hshr as [He' [Hq _]]; [ simpl; lia | ].
  rewrite fexp_binary64 in He'. simpl Zdigits2 in He'. fold d in He'.
  simpl shr_m in Hq.
  pose proof (round_nearest_even_bounds (shr_m mrs') (loc_of_shr_record mrs'))
    as Hrne.
  set (m1 := round_nearest_even (shr_m mrs') (loc_of_shr_record mrs')) in *.
  rewrite Hq in Hrne. clear Hq.
  set (k1 := e' - E) in *.
  assert (Hk1 : 0 <= k1 /\ Z.max d k1 <= K - E) by (unfold k1; lia).
  pose proof (div_succ_mul_pow2 (Z.pos M) d k1) as Hfirst.
  assert (Hm1 : 0 <= m1 /\ m1 * 2 ^ k1 <= 2 ^ (K - E)).
  { assert (0 <= Z.pos M / 2 ^ k1) by (apply Z.div_pos; [ lia | apply Z.pow_pos_nonneg; lia ]).
    split; [ lia | ].
    assert (2 ^ Z.max d k1 <= 2 ^ (K - E)) by (apply Z.pow_le_mono_r; lia).
    assert (0 < 2 ^ k1) by (apply Z.pow_pos_nonneg; lia).
    specialize (Hfirst ltac:(lia) ltac:(lia) ltac:(lia)). nia. }
  clear Hfirst Hrne.
  pose proof (shr_m_e (shr_record_of_loc m1 loc_Exact) e'
                (fexp prec emax (Zdigits2 m1 + e') - e')) as Hshr.
  fold (shr_fexp prec emax m1 e' loc_Exact) in Hshr.
  destruct (shr_fexp prec emax m1 e' loc_Exact) as [mrs'' e''].
  destruct Hshr as [He'' [Hq Hpos]]; [ simpl; lia | ].
  simpl shr_m in Hq.
  assert (Hk2 : 0 <= e'' - e') by lia.
  set (k2 := e'' - e') in *.
  assert (HP2 : 0 < 2 ^ k2) by (apply Z.pow_pos_nonneg; lia).
  pose proof (Z.mul_div_le m1 (2 ^ k2) HP2) as Hm2. rewrite <- Hq in Hm2.
  destruct (shr_m mrs'') as [ | m | m ]; [ exact I | | lia ].
  assert (Hsplit : 2 ^ (e'' - E) = 2 ^ k2 * 2 ^ k1)
    by (rewrite <- Z.pow_add_r by lia; f_equal; unfold k1, k2; lia).
  assert (HP1 : 0 < 2 ^ k1) by (apply Z.pow_pos_nonneg; lia).
  assert (Hval : Z.pos m * 2 ^ (e'' - E) <= 2 ^ (K - E)) by (rewrite Hsplit; nia).
  assert (Hexp : e'' <= K).
  { destruct (Z_le_gt_dec e'' K) as [ | Hgt ]; [ assumption | exfalso ].
    assert (2 ^ (K - E) < 2 ^ (e'' - E)) by (apply Z.pow_lt_mono_r; lia).
    nia. }
  destruct (Z.leb_spec e'' (emax - prec)) as [ _ | Hbad ];
    [ | unfold emax, prec in Hbad; lia ].
  simpl. split; [ assumption | ].
  assert (Hsplit' : 2 ^ (K - E) = 2 ^ (K - e'') * 2 ^ (e'' - E))
    by (rewrite <- Z.pow_add_r by (unfold k1, k2 in *; lia); f_equal; lia).
  assert (0 < 2 ^ (e'' - E)) by (apply Z.pow_pos_nonneg; unfold k1, k2 in *; lia).
  rewrite Hsplit' in Hval. nia.
Qed.

Lemma magnitude_le_truncate (K : Z) (x : spec_float) :
  0 <= K -> magnitude_le K x ->
  exists z, truncate x = Some z /\ Z.abs z <= 2 ^ K.
Proof.
  intros HK Hx. destruct x as [s | s | | s m e]; simpl in Hx; try contradiction.
  - exists 0. split; [ reflexivity | ]. simpl.
    pose proof (Z.pow_pos_nonneg 2 K); lia.
  - destruct Hx as [He Hm]. simpl. eexists. split; [ reflexivity | ].
    assert (Hsh : 0 <= Z.shiftl (Z.pos m) e <= 2 ^ K).
    { destruct (Z_le_gt_dec 0 e) as [Hnn | Hneg].
      - rewrite Z.shiftl_mul_pow2 by lia.
        assert (E2 : 2 ^ K = 2 ^ (K - e) * 2 ^ e)
          by (rewrite <- Z.pow_add_r by lia; f_equal; lia).
        assert (0 < 2 ^ e) by (apply Z.pow_pos_nonneg; lia).
        rewrite E2. nia.
      - rewrite Z.shiftl_div_pow2 by lia.
        assert (E2 : 2 ^ (K - e) = 2 ^ (- e) * 2 ^ K)
          by (rewrite <- Z.pow_add_r by lia; f_equal; lia).
        assert (0 < 2 ^ (- e)) by (apply Z.pow_pos_nonneg; lia).
        split; [ apply Z.div_pos; lia | ].
        apply Z.div_le_upper_bound; lia. }
    destruct s; simpl; lia.
Qed.

(** *** The conversion of an integer to a double *)

Lemma binary_normalize_integer_valid (z : Z) :
  Z.abs z < 2 ^ 64 ->
  valid_binary (binary_normalize prec emax z 0 false) = true.
Proof.
  intros Hz.
  assert (Hround : forall s p, Z.pos p < 2 ^ 64 ->
                               valid_binary (binary_round prec emax s p 0) = true).
  { intros s p Hp.
    destruct (binary_round_integer s p Hp) as (m & e & -> & Hd & He & _).
    unfold SpecFloat.valid_binary, bounded, canonical_mantissa.
    rewrite fexp_binary64, Hd.
    apply andb_true_intro; split; [ apply Z.eqb_eq | apply Z.leb_le ];
      unfold emax, prec; lia. }
  destruct z as [ | p | p ]; simpl binary_normalize;
    [ reflexivity | apply Hround | apply Hround ]; simpl in Hz; lia.
Qed.

Lemma Prim2SF_int64_to_double (z : Z) :
  Z.abs z < 2 ^ 64 ->
  Prim2SF (int64_to_double z) = binary_normalize prec emax z 0 false.
Proof.
  intros Hz. unfold int64_to_double.
  apply Prim2SF_SF2Prim, binary_normalize_integer_valid, Hz.
Qed.

Lemma binary_normalize_integer_magnitude (z : Z) (K : Z) :
  Z.abs z < 2 ^ K -> 0 <= K <= 64 ->
  magnitude_le K (binary_normalize prec emax z 0 false).
Proof.
  intros Hz HK.
  assert (H64 : 2 ^ K <= 2 ^ 64) by (apply Z.pow_le_mono_r; lia).
  assert (Hmag : forall s p, Z.pos p < 2 ^ K ->
                             magnitude_le K (binary_round prec emax s p 0)).
  { intros s p Hp.
    destruct (binary_round_integer s p) as (m & e & -> & Hd & He & Hrel); [ lia | ].
    simpl.
    assert (HeK : e <= K).
    { destruct Hrel as [[He0 _] | [He0 [Hlo _]]]; [ lia | ].
      destruct (Z_le_gt_dec e K) as [ | Hgt ]; [ assumption | exfalso ].
      pose proof (digits2_pos_bounds m) as [Dlo _]. rewrite Hd in Dlo.
      change (2 ^ (53 - 1)) with 4503599627370496 in Dlo.
      assert (2 ^ K <= 2 ^ e) by (apply Z.pow_le_mono_r; lia).
      nia. }
    split; [ assumption | ].
    destruct Hrel as [[He0 Hm] | [He0 [_ Hhi]]].
    - rewrite Hm. replace (K - e) with (K + - e) by lia.
      rewrite Z.pow_add_r by lia.
      assert (0 < 2 ^ (- e)) by (apply Z.pow_pos_nonneg; lia). nia.
    - assert (E2 : 2 ^ K = 2 ^ (K - e) * 2 ^ e)
        by (rewrite <- Z.pow_add_r by lia; f_equal; lia).
      assert (0 < 2 ^ e) by (apply Z.pow_pos_nonneg; lia).
      rewrite E2 in Hp. nia. }
  destruct z as [ | p | p ]; simpl binary_normalize;
    [ exact I | apply Hmag | apply Hmag ]; simpl in Hz; lia.
Qed.

(** *** Products *)

(** A double strictly between 0 and 1: positive, finite, below one. *)
Lemma interior_spec (t : float) :
  (0 <? t)%float = true -> (t <? 1)%float = true ->
  exists (m : positive) (e : Z),
    Prim2SF t = S754_finite false m e /\ e < 0 /\ Z.pos m < 2 ^ (- e).
Proof.
  rewrite !ltb_spec, Prim2SF_zero, Prim2SF_one. unfold SFltb, SFcompare.
  pose proof (Prim2SF_valid t) as Hv.
  destruct (Prim2SF t) as [s | s | | s m e]; try discriminate.
  - destruct s; discriminate.
  - destruct s; [ discriminate | ]. intros _ H1.
    exists m, e. split; [ reflexivity | ].
    assert (Hcmp : e < -52 \/ (e = -52 /\ Z.pos m < 4503599627370496)).
    { destruct (Z.compare_spec e (-52)) as [He | He | He];
        [ right | left; exact He | discriminate H1 ].
      split; [ exact He | ]. apply Pos2Z.pos_lt_pos.
      unfold Pos.lt, Pos.compare.
      destruct (Pos.compare_cont Eq m 4503599627370496);
        [ discriminate H1 | reflexivity | discriminate H1 ]. }
    clear H1.
    unfold SpecFloat.valid_binary, bounded, canonical_mantissa in Hv.
    apply andb_prop in Hv. destruct Hv as [Hc _].
    apply Z.eqb_eq in Hc. rewrite fexp_binary64 in Hc.
    pose proof (digits2_pos_bounds m) as [_ Dhi].
    destruct Hcmp as [He | [-> Hm]].
    + split; [ lia | ].
      assert (2 ^ Z.pos (digits2_pos m) <= 2 ^ (- e))
        by (apply Z.pow_le_mono_r; lia).
      lia.
    + split; [ lia | ]. exact Hm.
Qed.

(** Scaling by a factor below one does not raise the magnitude bound. *)
Lemma SFmul_interior_magnitude (x : spec_float) (K : Z) (m : positive) (e : Z) (s : bool) :
  magnitude_le K x -> 0 <= K <= 971 -> e < 0 -> Z.pos m < 2 ^ (- e) ->
  magnitude_le K (SFmul prec emax x (S754_finite s m e)).
Proof.
  intros Hx HK He Hm.
  destruct x as [sx | sx | | sx mx ex]; simpl in Hx; try contradiction.
  - exact I.
  - destruct Hx as [Hex Hmx]. unfold SFmul.
    apply binary_round_aux_magnitude; [ | assumption ].
    pose proof (digits2_pos_bounds (mx * m)) as [Dlo _].
    rewrite Pos2Z.inj_mul in Dlo.
    assert (Hprod : Z.pos mx * Z.pos m < 2 ^ (K - ex - e)).
    { replace (K - ex - e) with ((K - ex) + - e) by lia.
      rewrite Z.pow_add_r by lia.
      assert (0 < 2 ^ (K - ex)) by (apply Z.pow_pos_nonneg; lia). nia. }
    assert (Z.pos (digits2_pos (mx * m)) - 1 < K - ex - e)
      by (apply (Z.pow_lt_mono_r_iff 2); lia).
    lia.
Qed.

(** Halving a double with a full mantissa lowers its exponent by one. *)
Lemma SFmul_half (s : bool) (m : positive) (e : Z) :
  Z.pos (digits2_pos m) = 53 -> -1073 <= e <= 972 ->
  SFmul prec emax (S754_finite s m e) (S754_finite false 4503599627370496 (-53))
  = S754_finite s m (e - 1).
Proof.
  intros Hd He. unfold SFmul. rewrite xorb_false_r.
  replace (m * 4503599627370496)%positive with (Pos.iter xO m 52)
    by (rewrite Pos.mul_comm; reflexivity).
  rewrite binary_round_aux_exact by (try assumption; lia).
  f_equal. lia.
Qed.

(** *** Magnitudes of sums and products *)

Lemma magnitude_le_mono (K K' : Z) (x : spec_float) :
  K <= K' -> magnitude_le K x -> magnitude_le K' x.
Proof.
  intros HK. destruct x as [s | s | | s m e]; simpl; try tauto.
  intros [He Hm]. split; [ lia | ].
  assert (2 ^ (K - e) <= 2 ^ (K' - e)) by (apply Z.pow_le_mono_r; lia). lia.
Qed.

Lemma binary_round_magnitude (s : bool) (p : positive) (E K : Z) :
  Z.pos p < 2 ^ (K - E) -> 0 <= K <= 971 ->
  magnitude_le K (binary_round prec emax s p E).
Proof.
  intros Hp HK. pose proof (digits2_pos_bounds p) as [Dlo _].
  assert (HE : 0 <= K - E).
  { destruct (Z_le_gt_dec 0 (K - E)) as [ | Hneg ]; [ assumption | ].
    rewrite Z.pow_neg_r in Hp by lia. lia. }
  assert (Hd : Z.pos (digits2_pos p) - 1 < K - E)
    by (apply (Z.pow_lt_mono_r_iff 2); lia).
  unfold binary_round, shl_align.
  destruct (fexp prec emax (Z.pos (digits2_pos p) + E) - E) as [ | k | k ] eqn:Ek;
    apply binary_round_aux_magnitude; try assumption; try lia.
  destruct (iter_xO_spec k p) as [_ D]. rewrite D. lia.
Qed.

Lemma binary_normalize_magnitude (M E K : Z) (szero : bool) :
  Z.abs M < 2 ^ (K - E) -> 0 <= K <= 971 ->
  magnitude_le K (binary_normalize prec emax M E szero).
Proof.
  intros HM HK. destruct M as [ | p | p ]; simpl binary_normalize;
    [ exact I | | ]; apply binary_round_magnitude; simpl in HM; assumption.
Qed.

Lemma shl_align_fst (m : positive) (e ez : Z) :
  ez <= e -> Z.pos (fst (shl_align m e ez)) = Z.pos m * 2 ^ (e - ez).
Proof.
  intros Hez. unfold shl_align.
  destruct (ez - e) as [ | k | k ] eqn:Ek; simpl fst.
  - replace (e - ez) with 0 by lia. simpl. lia.
  - lia.
  - destruct (iter_xO_spec k m) as [V _]. rewrite V. f_equal. f_equal. lia.
Qed.

(** A finite double aligned to a lower exponent keeps its magnitude. *)
Lemma aligned_mantissa_bound (K : Z) (m : positive) (e ez : Z) :
  e <= K -> Z.pos m <= 2 ^ (K - e) -> ez <= e ->
  Z.pos (fst (shl_align m e ez)) <= 2 ^ (K - ez).
Proof.
  intros He Hm Hez. rewrite shl_align_fst by assumption.
  replace (K - ez) with ((K - e) + (e - ez)) by lia.
  rewrite Z.pow_add_r by lia.
  assert (0 < 2 ^ (e - ez)) by (apply Z.pow_pos_nonneg; lia). nia.
Qed.

Lemma SFadd_magnitude (x y : spec_float) (K : Z) :
  magnitude_le K x -> magnitude_le K y -> 0 <= K -> K + 2 <= 971 ->
  magnitude_le (K + 2) (SFadd prec emax x y).
Proof.
  intros Hx Hy HK HK'.
  destruct x as [sx | sx | | sx mx ex], y as [sy | sy | | sy my ey];
    simpl in Hx, Hy; try contradiction.
  - simpl. destruct sx, sy; exact I.
  - apply (magnitude_le_mono K); [ lia | exact Hy ].
  - apply (magnitude_le_mono K); [ lia | exact Hx ].
  - destruct Hx as [Hex Hmx], Hy as [Hey Hmy]. unfold SFadd.
    set (ez := Z.min ex ey).
    pose proof (aligned_mantissa_bound K mx ex ez Hex Hmx ltac:(unfold ez; lia)) as Bx.
    pose proof (aligned_mantissa_bound K my ey ez Hey Hmy ltac:(unfold ez; lia)) as By.
    apply binary_normalize_magnitude; [ | lia ].
    replace (K + 2 - ez) with (2 + (K - ez)) by lia.
    rewrite Z.pow_add_r by (unfold ez; lia). change (2 ^ 2) with 4.
    assert (0 < 2 ^ (K - ez)) by (apply Z.pow_pos_nonneg; unfold ez; lia).
    destruct sx, sy; simpl cond_Zopp; lia.
Qed.

Lemma SFsub_magnitude (x y : spec_float) (K : Z) :
  magnitude_le K x -> magnitude_le K y -> 0 <= K -> K + 2 <= 971 ->
  magnitude_le (K + 2) (SFsub prec emax x y).
Proof.
  intros Hx Hy HK HK'.
  destruct x as [sx | sx | | sx mx ex], y as [sy | sy | | sy my ey];
    simpl in Hx, Hy; try contradiction.
  - simpl. destruct sx, sy; exact I.
  - apply (magnitude_le_mono K); [ lia | exact Hy ].
  - apply (magnitude_le_mono K); [ lia | exact Hx ].
  - destruct Hx as [Hex Hmx], Hy as [Hey Hmy]. unfold SFsub.
    set (ez := Z.min ex ey).
    pose proof (aligned_mantissa_bound K mx ex ez Hex Hmx ltac:(unfold ez; lia)) as Bx.
    pose proof (aligned_mantissa_bound K my ey ez Hey Hmy ltac:(unfold ez; lia)) as By.
    apply binary_normalize_magnitude; [ | lia ].
    replace (K + 2 - ez) with (2 + (K - ez)) by lia.
    rewrite Z.pow_add_r by (unfold ez; lia). change (2 ^ 2) with 4.
    assert (0 < 2 ^ (K - ez)) by (apply Z.pow_pos_nonneg; unfold ez; lia).
    destruct sx, sy; simpl cond_Zopp; lia.
Qed.

Lemma SFmul_magnitude (x y : spec_float) (K1 K2 : Z) :
  magnitude_le K1 x -> magnitude_le K2 y ->
  0 <= K1 + K2 + 1 <= 971 ->
  magnitude_le (K1 + K2 + 1) (SFmul prec emax x y).
Proof.
  intros Hx Hy HK.
  destruct x as [sx | sx | | sx mx ex], y as [sy | sy | | sy my ey];
    simpl in Hx, Hy; try contradiction; try exact I.
  destruct Hx as [Hex Hmx], Hy as [Hey Hmy]. unfold SFmul.
  apply binary_round_aux_magnitude; [ | assumption ].
  pose proof (digits2_pos_bounds (mx * my)) as [Dlo _].
  rewrite Pos2Z.inj_mul in Dlo.
  assert (Hprod : Z.pos mx * Z.pos my < 2 ^ (K1 + K2 + 1 - (ex + ey))).
  { replace (K1 + K2 + 1 - (ex + ey)) with (1 + (K1 - ex) + (K2 - ey)) by lia.
    rewrite !Z.pow_add_r by lia. change (2 ^ 1) with 2.
    assert (0 < 2 ^ (K1 - ex)) by (apply Z.pow_pos_nonneg; lia).
    assert (0 < 2 ^ (K2 - ey)) by (apply Z.pow_pos_nonneg; lia). nia. }
  assert (Z.pos (digits2_pos (mx * my)) - 1 < K1 + K2 + 1 - (ex + ey))
    by (apply (Z.pow_lt_mono_r_iff 2); lia).
  lia.
Qed.

(** *** The casts the interpolator performs *)

Lemma static_cast_int64_truncate (x : float) (z : Z) :
  truncate (Prim2SF x) = Some z -> int64_min <= z <= int64_max ->
  static_cast_int64 x = Returns z.
Proof.
  intros Htr Hz. unfold static_cast_int64. rewrite Htr.
  destruct (Z.leb_spec int64_min z); [ | lia ].
  destruct (Z.leb_spec z int64_max); [ reflexivity | lia ].
Qed.

(** A duration below 2^62 microseconds scaled by a factor inside the unit
    interval casts back to an integer: the cast is defined. *)
Lemma static_cast_scaled_duration (d : Z) (t : float) :
  Z.abs d < 2 ^ 62 ->
  (0 <? t)%float = true -> (t <? 1)%float = true ->
  exists us : Z,
    static_cast_int64 (int64_to_double d * t) = Returns us /\ Z.abs us <= 2 ^ 62.
Proof.
  intros Hd H0 H1.
  destruct (interior_spec t H0 H1) as (m & e & Et & He & Hm).
  assert (H64 : Z.abs d < 2 ^ 64) by (change (2 ^ 62) with 4611686018427387904 in Hd;
                                     change (2 ^ 64) with 18446744073709551616; lia).
  pose proof (binary_normalize_integer_magnitude d 62 Hd ltac:(lia)) as Hx.
  pose proof (SFmul_interior_magnitude _ 62 m e false Hx ltac:(lia) He Hm) as Hprod.
  destruct (magnitude_le_truncate 62 _ ltac:(lia) Hprod) as (us & Htr & Hus).
  exists us. split; [ | assumption ].
  apply static_cast_int64_truncate.
  - rewrite mul_spec, Et, (Prim2SF_int64_to_double d H64). exact Htr.
  - unfold int64_min, int64_max.
    change (2 ^ 62) with 4611686018427387904 in Hus.
    change (2 ^ 63) with 9223372036854775808. lia.
Qed.

(** Half of a positive duration, as the interpolator computes it: at least
    one microsecond when there are two, and always short of the whole. *)
Lemma static_cast_half_duration (d : Z) :
  0 < d <= int64_max ->
  exists us : Z,
    static_cast_int64 (int64_to_double d * 0.5) = Returns us
    /\ 0 <= us < d /\ (2 <= d -> 1 <= us).
Proof.
  intros Hd. unfold int64_max in Hd. change (2 ^ 63) with 9223372036854775808 in Hd.
  destruct d as [ | p | p ]; try lia.
  assert (H64 : Z.abs (Z.pos p) < 2 ^ 64)
    by (change (2 ^ 64) with 18446744073709551616; simpl Z.abs; lia).
  destruct (binary_round_integer false p H64) as (m & e & Er & Hdig & He & Hrel).
  assert (Htr : truncate (Prim2SF (int64_to_double (Z.pos p) * 0.5))
                = Some (Z.shiftl (Z.pos m) (e - 1))).
  { rewrite mul_spec, Prim2SF_half, (Prim2SF_int64_to_double _ H64).
    simpl binary_normalize. rewrite Er.
    unfold SF64mul. rewrite SFmul_half by (try assumption; lia). reflexivity. }
  pose proof (digits2_pos_bounds m) as [Dlo _]. rewrite Hdig in Dlo.
  change (2 ^ (53 - 1)) with 4503599627370496 in Dlo.
  assert (Hus : 0 <= Z.shiftl (Z.pos m) (e - 1) < Z.pos p
                /\ (2 <= Z.pos p -> 1 <= Z.shiftl (Z.pos m) (e - 1))).
  { destruct Hrel as [[He0 Hm] | [He0 [Hlo Hhi]]].
    - rewrite Z.shiftl_div_pow2 by lia.
      replace (- (e - 1)) with (- e + 1) by lia.
      rewrite Z.pow_add_r by lia. change (2 ^ 1) with 2.
      rewrite Hm, (Z.mul_comm (2 ^ (- e)) 2),
        Z.div_mul_cancel_r by (try apply Z.pow_nonzero; lia).
      pose proof (Z.div_lt (Z.pos p) 2 ltac:(lia) ltac:(lia)).
      pose proof (Z.div_pos (Z.pos p) 2 ltac:(lia) ltac:(lia)).
      split; [ lia | ]. intros H2.
      apply Z.div_le_lower_bound; lia.
    - rewrite Z.shiftl_mul_pow2 by lia.
      assert (E2 : 2 ^ e = 2 * 2 ^ (e - 1)).
      { replace e with (1 + (e - 1)) at 1 by lia.
        rewrite Z.pow_add_r by lia. reflexivity. }
      assert (0 < 2 ^ (e - 1)) by (apply Z.pow_pos_nonneg; lia).
      rewrite E2 in Hlo, Hhi. nia. }
  exists (Z.shiftl (Z.pos m) (e - 1)). split; [ | exact Hus ].
  apply static_cast_int64_truncate; [ exact Htr | ].
  unfold int64_min, int64_max. change (2 ^ 63) with 9223372036854775808. lia.
Qed.

(** The integer formula of the interpolator on integers a double holds
    exactly: the cast of the result is defined. *)
Lemma static_cast_integer_formula (value1 value2 : Z) (t : float) :
  Z.abs value1 < 2 ^ 53 -> Z.abs value2 < 2 ^ 53 ->
  (0 <? t)%float = true -> (t <? 1)%float = true ->
  exists z : Z,
    static_cast_int64 ((1 - t) * int64_to_double value1
                       + (t + int64_to_double value2))%float = Returns z
    /\ Z.abs z <= 2 ^ 58.
Proof.
  intros Hv1 Hv2 H0 H1.
  destruct (interior_spec t H0 H1) as (m & e & Et & He & Hm).
  assert (Ht : magnitude_le 0 (Prim2SF t)).
  { rewrite Et. unfold magnitude_le. split; [ lia | ]. rewrite Z.sub_0_l. lia. }
  assert (Hone : magnitude_le 0 (Prim2SF 1)).
  { rewrite Prim2SF_one. unfold magnitude_le. split; [ lia | ].
    change (2 ^ (0 - -52)) with 4503599627370496. lia. }
  assert (H64 : forall v, Z.abs v < 2 ^ 53 -> Z.abs v < 2 ^ 64).
  { intros v Hv. change (2 ^ 53) with 9007199254740992 in Hv.
    change (2 ^ 64) with 18446744073709551616. lia. }
  pose proof (binary_normalize_integer_magnitude value1 53 Hv1 ltac:(lia)) as M1.
  pose proof (binary_normalize_integer_magnitude value2 53 Hv2 ltac:(lia)) as M2.
  rewrite <- (Prim2SF_int64_to_double value1 (H64 _ Hv1)) in M1.
  rewrite <- (Prim2SF_int64_to_double value2 (H64 _ Hv2)) in M2.
  pose proof (SFsub_magnitude _ _ 0 Hone Ht ltac:(lia) ltac:(lia)) as Msub.
  pose proof (SFmul_magnitude _ _ (0 + 2) 53 Msub M1 ltac:(lia)) as Mmul.
  pose proof (SFadd_magnitude _ _ 53 (magnitude_le_mono 0 53 _ ltac:(lia) Ht) M2
                ltac:(lia) ltac:(lia)) as Madd.
  pose proof (SFadd_magnitude _ _ 56 Mmul
                (magnitude_le_mono (53 + 2) 56 _ ltac:(lia) Madd)
                ltac:(lia) ltac:(lia)) as Mall.
  destruct (magnitude_le_truncate (56 + 2) _ ltac:(lia) Mall) as (z & Htr & Hz).
  exists z. split; [ | exact Hz ].
  apply static_cast_int64_truncate.
  - rewrite add_spec, mul_spec, sub_spec, add_spec. exact Htr.
  - unfold int64_min, int64_max.
    change (2 ^ (56 + 2)) with 288230376151711744 in Hz.
    change (2 ^ 63) with 9223372036854775808. lia.
Qed.

End Binary64.

(** ** Sanity checks on concrete inputs *)

Example scenario_real :
  interpolate_property integer_disabled (VReal 10) (VReal 20) 0.25 = Returns (VReal 12.5).
Proof. vm_compute. reflexivity. Qed.

Example scenario_string :
  interpolate_property integer_disabled (VString "A") (VString "B") 0.3
    = Returns (VString "A")
  /\ interpolate_property integer_disabled (VString "A") (VString "B") 0.7
    = Returns (VString "B").
Proof. split; vm_compute; reflexivity. Qed.

Example scenario_timestamp :
  interpolate_property integer_disabled (VTimestamp 1000) (VTimestamp 60001000) 0.5
    = Returns (VTimestamp 30001000).
Proof. vm_compute. reflexivity. Qed.

Example scenario_timestamp_backwards :
  interpolate_property integer_disabled (VTimestamp 10) (VTimestamp 7) 0.5
    = Returns (VTimestamp 9).
Proof. vm_compute. reflexivity. Qed.

Example scenario_integer :
  interpolate_property integer_enabled (VInteger 10) (VInteger 20) 0.5
    = Returns (VInteger 25).
Proof. vm_compute. reflexivity. Qed.

Example scenario_integer_overflow :
  interpolate_property integer_enabled (VInteger int64_max) (VInteger int64_max) 0.5
    = Undefined.
Proof. vm_compute. reflexivity. Qed.

Example int64_to_double_ties_to_even :
  int64_to_double 9007199254740993 = 9007199254740992%float
  /\ int64_to_double 9007199254740995 = 9007199254740996%float
  /\ int64_to_double (-3) = (-3)%float.
Proof. repeat split; vm_compute; reflexivity. Qed.

Example static_cast_int64_truncates :
  static_cast_int64 1.75 = Returns 1
  /\ static_cast_int64 (-1.75) = Returns (-1)
  /\ static_cast_int64 (-0.25) = Returns 0
  /\ static_cast_int64 9223372036854775808 = Undefined
  /\ static_cast_int64 (-9223372036854775808) = Returns int64_min
  /\ static_cast_int64 nan = Undefined.
Proof. repeat split; vm_compute; reflexivity. Qed.

Example tags_as_strings :
  property_type_as_string integer_enabled (VInteger 3) = "integer"%string
  /\ property_type_as_string integer_disabled (VNull (Build_NullValue TYPE_REAL))
     = "null"%string.
Proof. split; reflexivity. Qed.

(** ** The type-tag visitor *)

(** C4: [property_underlying_type] maps every live alternative to its tag
    (Real, String, Timestamp, Integer when the integer overload is compiled,
    and Null for a typed null whatever its [ExpectedType]); it never leaves
    the initial [TYPE_UNKNOWN]; and [is_property_null] holds exactly when the
    tag is [TYPE_NULL], hence for every typed null. *)
Theorem property_underlying_type_exhaustive (cfg : Config) :
  (forall d, property_underlying_type cfg (VReal d) = TYPE_REAL)
  /\ (forall s, property_underlying_type cfg (VString s) = TYPE_STRING)
  /\ (forall ts, property_underlying_type cfg (VTimestamp ts) = TYPE_TIMESTAMP)
  /\ (PROPERTY_VALUE_INCLUDES_INTEGER cfg = true ->
      forall i, property_underlying_type cfg (VInteger i) = TYPE_INTEGER)
  /\ (forall expected,
        property_underlying_type cfg (VNull (Build_NullValue expected)) = TYPE_NULL)
  /\ (forall v, property_underlying_type cfg v <> TYPE_UNKNOWN)
  /\ (forall v, is_property_null cfg v = true
                <-> property_underlying_type cfg v = TYPE_NULL)
  /\ (forall n, is_property_null cfg (VNull n) = true).
Proof.
  repeat split; try reflexivity.
  - intros Hint i. unfold property_underlying_type. simpl. now rewrite Hint.
  - intros [n | d | s | ts | i]; unfold property_underlying_type; simpl;
      try discriminate.
    destruct (PROPERTY_VALUE_INCLUDES_INTEGER cfg); discriminate.
  - unfold is_property_null.
    destruct (property_underlying_type cfg v); simpl; congruence.
  - unfold is_property_null. intros ->. reflexivity.
Qed.

Lemma property_underlying_type_exhaustive_witness :
  property_underlying_type integer_enabled (VInteger 7) = TYPE_INTEGER.
Proof.
  apply (proj1 (proj2 (proj2 (proj2
           (property_underlying_type_exhaustive integer_enabled))))).
  reflexivity.
Defined.

Lemma is_property_null_VNull (cfg : Config) (v : PropertyValueT) :
  is_property_null cfg v = true <-> exists n, v = VNull n.
Proof.
  unfold is_property_null, property_underlying_type. split.
  - destruct v as [n | d | s | ts | i]; simpl; try discriminate.
    + intros _. now exists n.
    + destruct (PROPERTY_VALUE_INCLUDES_INTEGER cfg); discriminate.
  - intros [n ->]. reflexivity.
Qed.

Lemma is_property_null_not_null (cfg : Config) (v : PropertyValueT) :
  (forall n, v <> VNull n) -> is_property_null cfg v = false.
Proof.
  intros Hv. destruct (is_property_null cfg v) eqn:E; [ | reflexivity ].
  apply is_property_null_VNull in E. destruct E as [n ->]. now elim (Hv n).
Qed.

(** ** The interpolator *)

Section Interpolator.

Local Open Scope float_scope.

Variable cfg : Config.

(** Inside the unit interval [interpolate_property] is the visitor call. *)
Lemma interpolate_property_interior (first second : PropertyValueT) (t : float) :
  (0 <? t) = true -> (t <? 1) = true ->
  interpolate_property cfg first second t
  = InterpolateProperties.apply_visitor cfg
      (InterpolateProperties.Build_visitor t second) first.
Proof.
  intros H0 H1. destruct (interior_no_shortcut t H0 H1) as [E0 E1].
  unfold interpolate_property. now rewrite E0, E1.
Qed.

(** Two timestamps inside the unit interval: the scaled duration. *)
Lemma interpolate_property_timestamps (value1 value2 : Timestamp) (t : float) :
  (0 <? t) = true -> (t <? 1) = true ->
  interpolate_property cfg (VTimestamp value1) (VTimestamp value2) t
  = (us <- static_cast_int64 (int64_to_double (value2 - value1) * t) ;;
     Returns (VTimestamp (value1 + us)%Z)).
Proof.
  intros H0 H1. now rewrite (interpolate_property_interior _ _ t H0 H1).
Qed.

End Interpolator.

(** C5: the boundary shortcut.  For values of any tags, matching or not,
    [t <= 0] returns [first] unchanged and [t >= 1] returns [second]
    unchanged; no overload is called and no payload is read. *)
Theorem interpolate_property_boundary
  (cfg : Config) (first second : PropertyValueT) (t : float) :
  ((t <=? 0)%float = true ->
     interpolate_property cfg first second t = Returns first)
  /\ ((1 <=? t)%float = true ->
     interpolate_property cfg first second t = Returns second).
Proof.
  unfold interpolate_property. split; intros H.
  - now rewrite H.
  - now rewrite (leb_one_leb_zero_false t H), H.
Qed.

Lemma interpolate_property_boundary_witness :
  interpolate_property integer_disabled (VReal 3) (VString "x") 0 = Returns (VReal 3)
  /\ interpolate_property integer_disabled (VReal 3) (VString "x") 1
     = Returns (VString "x").
Proof.
  split.
  - apply (proj1 (interpolate_property_boundary
                    integer_disabled (VReal 3) (VString "x") 0)).
    reflexivity.
  - apply (proj2 (interpolate_property_boundary
                    integer_disabled (VReal 3) (VString "x") 1)).
    reflexivity.
Defined.

(** C6: a typed null as [first] is a snap point.  Inside the unit interval
    the call returns [first] below the midpoint and [second] verbatim from
    the midpoint on, whatever [second] holds; so a null and [Real 5.0] give
    [Real 5.0] at 0.9 and the null at 0.1. *)
Theorem interpolate_null_first_snaps (cfg : Config) :
  (forall (n : NullValue) (second : PropertyValueT) (t : float),
      (0 <? t)%float = true -> (t <? 1)%float = true ->
      interpolate_property cfg (VNull n) second t
      = Returns (if (t <? 0.5)%float then VNull n else second))
  /\ (forall n : NullValue,
        interpolate_property cfg (VNull n) (VReal 5) 0.9 = Returns (VReal 5)
        /\ interpolate_property cfg (VNull n) (VReal 5) 0.1 = Returns (VNull n)).
Proof.
  split.
  - intros n second t H0 H1.
    rewrite (interpolate_property_interior cfg _ _ t H0 H1). simpl.
    unfold InterpolateProperties.visit_NullValue. simpl.
    now destruct (t <? 0.5)%float.
  - intros n. split; reflexivity.
Qed.

Lemma interpolate_null_first_snaps_witness :
  interpolate_property integer_disabled
    (VNull (Build_NullValue TYPE_STRING)) (VTimestamp 12) 0.75
  = Returns (VTimestamp 12).
Proof.
  apply (proj1 (interpolate_null_first_snaps integer_disabled)
           (Build_NullValue TYPE_STRING) (VTimestamp 12) 0.75%float);
    reflexivity.
Defined.

(** C8: strings are selected, never blended.  Inside the unit interval a
    string [first] with a string [second] gives [first] below the midpoint
    and [second] from it on; with a typed null [second] the same snap
    applies; for distinct strings the result is [s1] at 0.49 and [s2] at
    0.51. *)
Theorem interpolate_string_selects (cfg : Config) :
  (forall (s1 s2 : string) (t : float),
      (0 <? t)%float = true -> (t <? 1)%float = true ->
      interpolate_property cfg (VString s1) (VString s2) t
      = Returns (if (t <? 0.5)%float then VString s1 else VString s2))
  /\ (forall (s1 : string) (n : NullValue) (t : float),
      (0 <? t)%float = true -> (t <? 1)%float = true ->
      interpolate_property cfg (VString s1) (VNull n) t
      = Returns (if (t <? 0.5)%float then VString s1 else VNull n))
  /\ (forall s1 s2 : string, s1 <> s2 ->
      interpolate_property cfg (VString s1) (VString s2) 0.49 = Returns (VString s1)
      /\ interpolate_property cfg (VString s1) (VString s2) 0.51
         = Returns (VString s2)).
Proof.
  split; [ | split ].
  - intros s1 s2 t H0 H1.
    rewrite (interpolate_property_interior cfg _ _ t H0 H1). simpl.
    unfold InterpolateProperties.visit_string. simpl.
    now destruct (t <? 0.5)%float.
  - intros s1 n t H0 H1.
    rewrite (interpolate_property_interior cfg _ _ t H0 H1). reflexivity.
  - intros s1 s2 _. split; reflexivity.
Qed.

Lemma interpolate_string_selects_witness :
  (interpolate_property integer_disabled (VString "A") (VString "B") 0.25
   = Returns (VString "A")
   /\ interpolate_property integer_disabled
        (VString "A") (VNull (Build_NullValue TYPE_STRING)) 0.5
      = Returns (VNull (Build_NullValue TYPE_STRING)))
  /\ interpolate_property integer_disabled (VString "A") (VString "B") 0.51
     = Returns (VString "B").
Proof.
  pose proof (interpolate_string_selects integer_disabled) as [Hs [Hn Hd]].
  split; [ split | ].
  - apply (Hs "A"%string "B"%string 0.25%float); reflexivity.
  - apply (Hn "A"%string (Build_NullValue TYPE_STRING) 0.5%float); reflexivity.
  - apply (Hd "A"%string "B"%string). discriminate.
Defined.

(** C1 (what the source does): the overload for a real [first] reads
    [second] with [boost::get<double>] before any null test.  Inside the
    unit interval a typed null [second] therefore makes the call throw
    [bad_get] on both sides of the midpoint, where the string, timestamp and
    integer overloads snap; a real [second] gives the linear blend, and only
    a real [second] makes the call return. *)
Theorem interpolate_real_null_second_throws
  (cfg : Config) (value1 : float) (t : float) :
  (0 <? t)%float = true -> (t <? 1)%float = true ->
  (forall n : NullValue,
      interpolate_property cfg (VReal value1) (VNull n) t = Throws bad_get)
  /\ (forall value2 : float,
      interpolate_property cfg (VReal value1) (VReal value2) t
      = Returns (VReal (linear_blend t value1 value2)))
  /\ (forall second : PropertyValueT,
      (forall value2 : float, second <> VReal value2) ->
      interpolate_property cfg (VReal value1) second t = Throws bad_get).
Proof.
  intros H0 H1. split; [ | split ].
  - intros n. now rewrite (interpolate_property_interior cfg _ _ t H0 H1).
  - intros value2. now rewrite (interpolate_property_interior cfg _ _ t H0 H1).
  - intros second Hsecond.
    rewrite (interpolate_property_interior cfg _ _ t H0 H1).
    destruct second as [n2 | d2 | s2 | ts2 | i2]; try reflexivity.
    now elim (Hsecond d2).
Qed.

Lemma interpolate_real_null_second_throws_witness :
  interpolate_property integer_disabled
    (VReal 1) (VNull (Build_NullValue TYPE_REAL)) 0.25
  = Throws bad_get.
Proof.
  apply (proj1 (interpolate_real_null_second_throws
                  integer_disabled 1%float 0.25%float eq_refl eq_refl)).
Defined.

(** C2 as stated fails: two timestamps one microsecond apart have no instant
    strictly between them, and the midpoint call returns the first. *)
Lemma interpolate_timestamp_midpoint_adjacent :
  0 < 1
  /\ interpolate_property integer_disabled (VTimestamp 0) (VTimestamp 1) 0.5
     = Returns (VTimestamp 0)
  /\ ~ (0 < 0 < 1).
Proof. split; [ lia | ]. split; [ reflexivity | lia ]. Qed.

(** C2 (amended): for timestamps [t1 < t2] whose distance fits the 64-bit
    microsecond count, the midpoint call returns a timestamp in [t1, t2),
    strictly after [t1] as soon as the two are at least two microseconds
    apart; at [t = 1.0] the call returns [t2] itself. *)
Theorem interpolate_timestamp_midpoint
  (cfg : Config) (t1 t2 : Timestamp) :
  t1 < t2 -> t2 - t1 <= int64_max ->
  (exists r : Timestamp,
      interpolate_property cfg (VTimestamp t1) (VTimestamp t2) 0.5
      = Returns (VTimestamp r)
      /\ t1 <= r < t2
      /\ (2 <= t2 - t1 -> t1 < r))
  /\ interpolate_property cfg (VTimestamp t1) (VTimestamp t2) 1
     = Returns (VTimestamp t2).
Proof.
  intros Hlt Hfit. split; [ | reflexivity ].
  destruct (static_cast_half_duration (t2 - t1)) as (us & Eus & Hus & Hus2);
    [ lia | ].
  exists (t1 + us). split; [ | lia ].
  rewrite (interpolate_property_timestamps cfg t1 t2 0.5%float eq_refl eq_refl).
  rewrite Eus. reflexivity.
Qed.

Lemma interpolate_timestamp_midpoint_witness :
  (exists r : Timestamp,
      interpolate_property integer_disabled (VTimestamp 10) (VTimestamp 17) 0.5
      = Returns (VTimestamp r)
      /\ 10 <= r < 17
      /\ (2 <= 17 - 10 -> 10 < r))
  /\ interpolate_property integer_disabled (VTimestamp 10) (VTimestamp 17) 1
     = Returns (VTimestamp 17).
Proof.
  apply (interpolate_timestamp_midpoint integer_disabled 10 17).
  - reflexivity.
  - discriminate.
Defined.

(** * Further properties of [PropertyValue.cpp] *)

(** ** Rounding below 2^53 *)

Section ExactIntegers.

(** An integer below 2^53 converts to a double without rounding. *)
Lemma binary_round_small_integer (s : bool) (p : positive) :
  Z.pos p < 2 ^ 53 ->
  exists (m : positive) (e : Z),
    binary_round prec emax s p 0 = S754_finite s m e
    /\ Z.pos (digits2_pos m) = 53
    /\ -52 <= e <= 0
    /\ Z.pos m = Z.pos p * 2 ^ (- e).
Proof.
  intros Hp. pose proof (digits2_pos_bounds p) as [Dlo Dhi].
  set (d := Z.pos (digits2_pos p)) in *.
  assert (Hd : 1 <= d <= 53).
  { split; [ unfold d; lia | ].
    destruct (Z_lt_le_dec 53 d) as [Hgt | ]; [ exfalso | assumption ].
    assert (2 ^ 53 <= 2 ^ (d - 1)) by (apply Z.pow_le_mono_r; lia). lia. }
  unfold binary_round. rewrite fexp_binary64. fold d. unfold shl_align.
  destruct (Z.max (d + 0 - 53) (-1074) - 0) as [ | k | k ] eqn:Ek.
  - exists p, 0. rewrite binary_round_aux_noshift by (fold d; lia).
    split; [ reflexivity | ]. split; [ fold d; lia | ]. split; [ lia | ].
    simpl. lia.
  - lia.
  - assert (Hk : Z.pos k = 53 - d) by lia.
    destruct (iter_xO_spec k p) as [V D]. fold d in D.
    rewrite binary_round_aux_noshift by lia.
    exists (Pos.iter xO p k), (Z.max (d + 0 - 53) (-1074)).
    split; [ reflexivity | ]. split; [ lia | ]. split; [ lia | ].
    rewrite V. f_equal. f_equal. lia.
Qed.

(** Rounding a value below an integer [d < 2^53] does not pass [d]: every
    integer lies on the grid the value is rounded to. *)
Lemma binary_round_aux_below (s : bool) (M : positive) (E d : Z) :
  0 < d < 2 ^ 53 -> E <= 0 -> Z.pos M < d * 2 ^ (- E) ->
  bounded_by s d (binary_round_aux prec emax s (Z.pos M) E loc_Exact).
Proof.
  intros Hd HE HM.
  change (2 ^ 53) with 9007199254740992 in Hd.
  pose proof (digits2_pos_bounds M) as [Dlo _].
  set (dM := Z.pos (digits2_pos M)) in *.
  assert (HdM : dM + E <= 53).
  { assert (HPE : 0 < 2 ^ (- E)) by (apply Z.pow_pos_nonneg; lia).
    assert (Hlt : 2 ^ (dM - 1) < 2 ^ (53 - E)).
    { replace (53 - E) with (53 + - E) by lia. rewrite Z.pow_add_r by lia.
      change (2 ^ 53) with 9007199254740992. nia. }
    apply (Z.pow_lt_mono_r_iff 2) in Hlt; lia. }
  unfold binary_round_aux.
  pose proof (shr_m_e (shr_record_of_loc (Z.pos M) loc_Exact) E
                (fexp prec emax (Zdigits2 (Z.pos M) + E) - E)) as Hshr.
  fold (shr_fexp prec emax (Z.pos M) E loc_Exact) in Hshr.
  destruct (shr_fexp prec emax (Z.pos M) E loc_Exact) as [mrs' e'].
  destruct Hshr as [He' [Hq _]]; [ simpl; lia | ].
  rewrite fexp_binary64 in He'. simpl Zdigits2 in He'. fold dM in He'.
  simpl shr_m in Hq.
  pose proof (round_nearest_even_bounds (shr_m mrs') (loc_of_shr_record mrs'))
    as Hrne.
  set (m1 := round_nearest_even (shr_m mrs') (loc_of_shr_record mrs')) in *.
  rewrite Hq in Hrne. clear Hq.
  assert (He0 : E <= e' <= 0) by lia.
  assert (Hm1 : 0 <= m1 <= d * 2 ^ (- e')).
  { assert (HP1 : 0 < 2 ^ (e' - E)) by (apply Z.pow_pos_nonneg; lia).
    assert (Hsplit : 2 ^ (- E) = 2 ^ (e' - E) * 2 ^ (- e'))
      by (rewrite <- Z.pow_add_r by lia; f_equal; lia).
    assert (0 <= Z.pos M / 2 ^ (e' - E)) by (apply Z.div_pos; lia).
    assert (Z.pos M / 2 ^ (e' - E) < d * 2 ^ (- e')).
    { apply Z.div_lt_upper_bound; [ assumption | ]. rewrite Hsplit in HM. nia. }
    lia. }
  clear Hrne He'.
  pose proof (shr_m_e (shr_record_of_loc m1 loc_Exact) e'
                (fexp prec emax (Zdigits2 m1 + e') - e')) as Hshr.
  fold (shr_fexp prec emax m1 e' loc_Exact) in Hshr.
  destruct (shr_fexp prec emax m1 e' loc_Exact) as [mrs'' e''].
  destruct Hshr as [He'' [Hq Hpos]]; [ simpl; lia | ].
  simpl shr_m in Hq. rewrite fexp_binary64 in He''.
  assert (He2 : e' <= e'' <= 0).
  { split; [ lia | ].
    destruct m1 as [ | p1 | p1 ]; simpl Zdigits2 in He''; [ lia | | lia ].
    pose proof (digits2_pos_bounds p1) as [D1 _].
    assert (HPe : 0 < 2 ^ (- e')) by (apply Z.pow_pos_nonneg; lia).
    assert (Hlt : 2 ^ (Z.pos (digits2_pos p1) - 1) < 2 ^ (53 - e')).
    { replace (53 - e') with (53 + - e') by lia. rewrite Z.pow_add_r by lia.
      change (2 ^ 53) with 9007199254740992. nia. }
    apply (Z.pow_lt_mono_r_iff 2) in Hlt; lia. }
  assert (HP2 : 0 < 2 ^ (e'' - e')) by (apply Z.pow_pos_nonneg; lia).
  pose proof (Z.mul_div_le m1 (2 ^ (e'' - e')) HP2) as Hm2. rewrite <- Hq in Hm2.
  destruct (shr_m mrs'') as [ | m | m ]; [ exact I | | lia ].
  destruct (Z.leb_spec e'' (emax - prec)) as [ _ | Hbad ];
    [ | unfold emax, prec in Hbad; lia ].
  unfold bounded_by. split; [ reflexivity | ]. split; [ lia | ].
  assert (Hsplit : 2 ^ (- e') = 2 ^ (e'' - e') * 2 ^ (- e''))
    by (rewrite <- Z.pow_add_r by lia; f_equal; lia).
  assert (0 < 2 ^ (- e'')) by (apply Z.pow_pos_nonneg; lia).
  rewrite Hsplit in Hm1. nia.
Qed.

Lemma bounded_by_truncate (s : bool) (d : Z) (x : spec_float) :
  0 <= d -> bounded_by s d x ->
  exists z, truncate x = Some z /\ 0 <= cond_Zopp s z <= d.
Proof.
  intros Hd Hx. destruct x as [s' | s' | | s' m e]; simpl in Hx; try contradiction.
  - exists 0. split; [ reflexivity | ]. destruct s; simpl; lia.
  - destruct Hx as [-> [He Hm]]. simpl. eexists. split; [ reflexivity | ].
    assert (Hsh : 0 <= Z.shiftl (Z.pos m) e <= d).
    { rewrite Z.shiftl_div_pow2 by lia.
      assert (0 < 2 ^ (- e)) by (apply Z.pow_pos_nonneg; lia).
      split; [ apply Z.div_pos; lia | ].
      apply Z.div_le_upper_bound; lia. }
    destruct s; simpl; lia.
Qed.

End ExactIntegers.

(** ** Durations a double holds exactly *)

Section ExactDurations.

Lemma Prim2SF_two : Prim2SF 2%float = S754_finite false 4503599627370496 (-51).
Proof. vm_compute. reflexivity. Qed.

(** Scaling a double with a full mantissa by a power of two shifts its
    exponent. *)
Lemma SFmul_power_of_two (s : bool) (m : positive) (e k : Z) :
  Z.pos (digits2_pos m) = 53 -> (-1074 <= e + k + 52 <= 971) ->
  SFmul prec emax (S754_finite s m e) (S754_finite false 4503599627370496 k)
  = S754_finite s m (e + k + 52).
Proof.
  intros Hd He. unfold SFmul. rewrite xorb_false_r.
  replace (m * 4503599627370496)%positive with (Pos.iter xO m 52)
    by (rewrite Pos.mul_comm; reflexivity).
  rewrite binary_round_aux_exact by (try assumption; lia).
  f_equal.
Qed.

(** The double of an integer below 2^53, by sign. *)
Lemma Prim2SF_int64_to_double_exact (d : Z) :
  (Z.abs d < 2 ^ 53) -> d <> 0 ->
  exists (m : positive) (e : Z),
    Prim2SF (int64_to_double d) = S754_finite (d <? 0) m e
    /\ Z.pos (digits2_pos m) = 53
    /\ (-52 <= e <= 0)
    /\ Z.pos m = (Z.abs d * 2 ^ (- e)).
Proof.
  intros Hd Hnz.
  assert (H64 : (Z.abs d < 2 ^ 64)).
  { change (2 ^ 53) with 9007199254740992 in Hd.
    change (2 ^ 64) with 18446744073709551616. lia. }
  rewrite (Prim2SF_int64_to_double d H64).
  destruct d as [ | p | p ]; [ congruence | | ]; simpl binary_normalize;
    simpl Z.abs in *.
  - exact (binary_round_small_integer false p Hd).
  - exact (binary_round_small_integer true p Hd).
Qed.

(** A duration below 2^53 microseconds scaled by a factor inside the unit
    interval: the cast is defined and gives a duration of the same sign, no
    longer than the original. *)
Lemma static_cast_scaled_exact_duration (d : Z) (t : float) :
  (Z.abs d < 2 ^ 53) ->
  (0 <? t)%float = true -> (t <? 1)%float = true ->
  exists us : Z,
    static_cast_int64 (int64_to_double d * t)%float = Returns us
    /\ (0 <= d -> 0 <= us <= d)
    /\ (d <= 0 -> d <= us <= 0).
Proof.
  intros Hd H0 H1.
  destruct (interior_spec t H0 H1) as (mt & et & Et & Het & Hmt).
  destruct (Z.eq_dec d 0) as [-> | Hnz].
  - exists 0. split; [ | lia ].
    apply static_cast_int64_truncate.
    + rewrite mul_spec, Et. reflexivity.
    + split; discriminate.
  - destruct (Prim2SF_int64_to_double_exact d Hd Hnz) as (m & e & Ed & Hdig & He & Hm).
    assert (Hb : bounded_by (d <? 0) (Z.abs d)
                   (Prim2SF (int64_to_double d * t)%float)).
    { rewrite mul_spec, Et, Ed. unfold SF64mul, SFmul. rewrite xorb_false_r.
      apply binary_round_aux_below; [ lia | lia | ].
      rewrite Pos2Z.inj_mul, Hm.
      replace (- (e + et)) with (- e + - et) by lia.
      rewrite Z.pow_add_r by lia.
      assert (0 < 2 ^ (- e)) by (apply Z.pow_pos_nonneg; lia).
      assert (0 < Z.abs d) by lia. nia. }
    destruct (bounded_by_truncate _ _ _ (Z.abs_nonneg d) Hb) as (us & Htr & Hus).
    change (2 ^ 53) with 9007199254740992 in Hd.
    exists us. split.
    + apply static_cast_int64_truncate; [ exact Htr | ].
      unfold int64_min, int64_max. change (2 ^ 63) with 9223372036854775808.
      destruct (d <? 0); simpl in Hus; lia.
    + destruct (Z.ltb_spec d 0); simpl in Hus; lia.
Qed.

(** Half of a duration below 2^53 microseconds: the quotient by two, rounded
    towards zero. *)
Lemma static_cast_half_exact_duration (d : Z) :
  (Z.abs d < 2 ^ 53) ->
  static_cast_int64 (int64_to_double d * 0.5)%float = Returns (Z.quot d 2).
Proof.
  intros Hd.
  destruct (Z.eq_dec d 0) as [-> | Hnz]; [ reflexivity | ].
  destruct (Prim2SF_int64_to_double_exact d Hd Hnz) as (m & e & Ed & Hdig & He & Hm).
  change (2 ^ 53) with 9007199254740992 in Hd.
  assert (Hq : Z.shiftl (Z.pos m) (e - 1) = (Z.abs d / 2)).
  { rewrite Z.shiftl_div_pow2 by lia.
    replace (- (e - 1)) with (- e + 1) by lia.
    rewrite Z.pow_add_r by lia. change (2 ^ 1) with 2.
    rewrite Hm, (Z.mul_comm (2 ^ (- e)) 2),
      Z.div_mul_cancel_r by (try apply Z.pow_nonzero; lia).
    reflexivity. }
  assert (Hhalf : (0 <= Z.abs d / 2 <= Z.abs d)).
  { split; [ apply Z.div_pos; lia | ].
    apply Z.div_le_upper_bound; lia. }
  apply static_cast_int64_truncate.
  - rewrite mul_spec, Prim2SF_half, Ed. unfold SF64mul.
    rewrite SFmul_half by (try assumption; lia). simpl truncate. rewrite Hq.
    f_equal. destruct d as [ | p | p ]; [ congruence | | ].
    + simpl Z.abs. simpl cond_Zopp. symmetry. apply Z.quot_div_nonneg; lia.
    + simpl Z.abs. change (Z.neg p <? 0) with true. simpl cond_Zopp.
      change (Z.neg p) with (- Z.pos p).
      rewrite Z.quot_opp_l by lia. f_equal.
      symmetry. apply Z.quot_div_nonneg; lia.
  - unfold int64_min, int64_max. change (2 ^ 63) with 9223372036854775808.
    pose proof (Z.quot_le_mono 0 (Z.abs d) 2) as Hlo.
    assert (Z.abs (Z.quot d 2) <= Z.abs d).
    { rewrite <- Z.quot_abs by lia. change (Z.abs 2) with 2.
      rewrite Z.quot_div_nonneg by lia. lia. }
    lia.
Qed.

(** Whole steps of a duration below 2^53 microseconds: no step, one step and
    two steps are reproduced exactly. *)
Lemma static_cast_whole_steps (d : Z) :
  (Z.abs d < 2 ^ 53) ->
  static_cast_int64 (int64_to_double d * 0)%float = Returns 0
  /\ static_cast_int64 (int64_to_double d * 1)%float = Returns d
  /\ static_cast_int64 (int64_to_double d * 2)%float = Returns (2 * d).
Proof.
  intros Hd.
  destruct (Z.eq_dec d 0) as [-> | Hnz]; [ repeat split | ].
  destruct (Prim2SF_int64_to_double_exact d Hd Hnz) as (m & e & Ed & Hdig & He & Hm).
  change (2 ^ 53) with 9007199254740992 in Hd.
  assert (HP : (0 < 2 ^ (- e))) by (apply Z.pow_pos_nonneg; lia).
  assert (Hsign : forall z : Z, cond_Zopp (d <? 0) (z * Z.abs d) = (z * d)).
  { intros z. destruct (Z.ltb_spec d 0); simpl; lia. }
  assert (Hrange : forall z : Z, (Z.abs z <= 2) ->
             (int64_min <= z * d <= int64_max)).
  { intros z Hz. unfold int64_min, int64_max.
    change (2 ^ 63) with 9223372036854775808. nia. }
  split; [ | split ].
  - apply static_cast_int64_truncate; [ | split; discriminate ].
    rewrite mul_spec, Prim2SF_zero, Ed. reflexivity.
  - replace d with (1 * d) at 2 by lia.
    apply static_cast_int64_truncate; [ | apply Hrange; simpl; lia ].
    rewrite mul_spec, Prim2SF_one, Ed. unfold SF64mul.
    rewrite SFmul_power_of_two by (try assumption; lia). simpl truncate.
    rewrite <- Hsign. f_equal. f_equal.
    replace (e + -52 + 52) with e by lia.
    rewrite Z.shiftl_div_pow2, Hm, Z.div_mul by lia. lia.
  - apply static_cast_int64_truncate; [ | apply Hrange; simpl; lia ].
    rewrite mul_spec, Prim2SF_two, Ed. unfold SF64mul.
    rewrite SFmul_power_of_two by (try assumption; lia). simpl truncate.
    rewrite <- Hsign. f_equal. f_equal.
    replace (e + -51 + 52) with (e + 1) by lia.
    destruct (Z.eq_dec e 0) as [-> | Hne].
    + simpl in Hm. rewrite Z.shiftl_mul_pow2 by lia. change (2 ^ (0 + 1)) with 2.
      lia.
    + rewrite Z.shiftl_div_pow2 by lia.
      assert (Hsplit : (2 ^ (- e) = 2 * 2 ^ (- (e + 1)))).
      { replace (- e) with (1 + - (e + 1)) by lia.
        rewrite Z.pow_add_r by lia. reflexivity. }
      rewrite Hm, Hsplit.
      replace (Z.abs d * (2 * 2 ^ (- (e + 1))))
        with (2 * Z.abs d * 2 ^ (- (e + 1))) by lia.
      rewrite Z.div_mul by (apply Z.pow_nonzero; lia). reflexivity.
Qed.

End ExactDurations.

(** ** Type names and the rendering of a typed null *)

Section Rendering.

Local Open Scope string_scope.



Lemma operator_lshift_NullValue_text (out : ostream) (value : NullValue) :
  operator_lshift_NullValue out value
  = out ++ "(null "
        ++ match ExpectedType value with
           | TYPE_UNKNOWN => "unknown"
           | TYPE_REAL => "real"
           | TYPE_STRING => "string"
           | TYPE_TIMESTAMP => "timestamp"
           | TYPE_INTEGER => "integer"
           | TYPE_NULL => "null"
           end
        ++ ")".
Proof.
  unfold operator_lshift_NullValue, operator_lshift_ExpectedType, insert_string.
  destruct (ExpectedType value); reflexivity.
Qed.

Lemma property_underlying_type_known (cfg : Config) (v : PropertyValueT) :
  property_underlying_type cfg v <> TYPE_UNKNOWN.
Proof.
  destruct v as [n | d | s | ts | i]; unfold property_underlying_type; simpl;
    try discriminate.
  destruct (PROPERTY_VALUE_INCLUDES_INTEGER cfg); discriminate.
Qed.

End Rendering.

(** X1: [property_type_as_string] names exactly the tag.  Two values get the
    same name if and only if they have the same tag; the name is ["null"]
    exactly for the values [is_property_null] accepts; and no value is ever
    named ["unknown"]. *)
Theorem property_type_as_string_names_the_tag (cfg : Config) :
  (forall v1 v2 : PropertyValueT,
      property_type_as_string cfg v1 = property_type_as_string cfg v2
      <-> property_underlying_type cfg v1 = property_underlying_type cfg v2)
  /\ (forall v : PropertyValueT,
      property_type_as_string cfg v = "null"%string
      <-> is_property_null cfg v = true)
  /\ (forall v : PropertyValueT,
      property_type_as_string cfg v <> "unknown"%string).
Proof.
  split; [ | split ].
  - intros v1 v2. unfold property_type_as_string.
    destruct (property_underlying_type cfg v1), (property_underlying_type cfg v2);
      split; intros H; try reflexivity; discriminate H.
  - intros v. unfold property_type_as_string, is_property_null.
    destruct (property_underlying_type cfg v); split; intros H;
      try reflexivity; discriminate H.
  - intros v. unfold property_type_as_string.
    pose proof (property_underlying_type_known cfg v) as Hv.
    destruct (property_underlying_type cfg v); try discriminate.
    now elim Hv.
Qed.



(** X3: the two switches agree on the names.  A typed null that expects the
    tag of a value [v] is written as ["(null "], the name
    [property_type_as_string] gives [v], and [")"]. *)
Theorem operator_lshift_NullValue_uses_type_names
  (cfg : Config) (out : ostream) (v : PropertyValueT) :
  operator_lshift_NullValue out (Build_NullValue (property_underlying_type cfg v))
  = (out ++ "(null " ++ property_type_as_string cfg v ++ ")")%string.
Proof.
  rewrite operator_lshift_NullValue_text. unfold property_type_as_string. simpl.
  destruct (property_underlying_type cfg v); reflexivity.
Qed.

(** ** What a call can return, and how it can fail *)

Lemma static_cast_int64_no_throw (x : float) (e : exception) :
  static_cast_int64 x <> Throws e.
Proof.
  unfold static_cast_int64. destruct (truncate (Prim2SF x)) as [z | ];
    [ destruct ((int64_min <=? z) && (z <=? int64_max)) | ]; discriminate.
Qed.

Lemma is_property_null_which (cfg : Config) (v : PropertyValueT) :
  is_property_null cfg v = Nat.eqb (which v) 0.
Proof.
  destruct v as [n | d | s | ts | i]; try reflexivity.
  unfold is_property_null, property_underlying_type. simpl.
  now destruct (PROPERTY_VALUE_INCLUDES_INTEGER cfg).
Qed.

Ltac split_midpoint t :=
  match goal with
  | |- context [(t <? 0.5)%float] => destruct (t <? 0.5)%float
  | _ => idtac
  end.

Ltac throws_iff :=
  split;
  [ let H := fresh "H" in
    intros H;
    first [ discriminate H
          | split; [ discriminate
                   | split; [ discriminate
                            | first [ left; reflexivity | right; discriminate ] ] ] ]
  | let H1 := fresh "H" in
    let H2 := fresh "H" in
    let H3 := fresh "H" in
    intros [H1 [H2 H3]];
    first [ reflexivity
          | exfalso;
            first [ now apply H1
                  | now apply H2
                  | destruct H3 as [H3 | H3]; [ discriminate H3 | now apply H3 ] ] ] ].

Section Outcomes.

Variable cfg : Config.

(** The visitor call never manufactures another kind of value. *)
Lemma apply_visitor_provenance (first second v : PropertyValueT) (t : float) :
  feature_consistent cfg ->
  InterpolateProperties.apply_visitor cfg
    (InterpolateProperties.Build_visitor t second) first = Returns v ->
  v = first \/ v = second
  \/ (is_property_null cfg v = false
      /\ property_underlying_type cfg v = property_underlying_type cfg first).
Proof.
  intros Hcfg. unfold feature_consistent in Hcfg.
  destruct first as [n1 | d1 | s1 | ts1 | i1]; simpl.
  - unfold InterpolateProperties.visit_NullValue. simpl.
    destruct (t <? 0.5)%float; intros [= <-]; auto.
  - unfold InterpolateProperties.visit_double. simpl.
    destruct second as [n2 | d2 | s2 | ts2 | i2]; simpl; try discriminate.
    intros [= <-]. right; right. split; reflexivity.
  - unfold InterpolateProperties.visit_string. simpl.
    destruct (is_property_null cfg second).
    + destruct (t <? 0.5)%float; intros [= <-]; auto.
    + destruct second as [n2 | d2 | s2 | ts2 | i2]; simpl; try discriminate.
      destruct (t <? 0.5)%float; intros [= <-]; auto.
  - unfold InterpolateProperties.visit_Timestamp. simpl.
    destruct (is_property_null cfg second).
    + destruct (t <? 0.5)%float; intros [= <-]; auto.
    + destruct second as [n2 | d2 | s2 | ts2 | i2]; simpl; try discriminate.
      destruct (static_cast_int64 _); simpl; try discriminate.
      intros [= <-]. right; right. split; reflexivity.
  - destruct (PROPERTY_VALUE_INCLUDES_INT cfg) eqn:Eint.
    + unfold InterpolateProperties.visit_int64. simpl.
      destruct (is_property_null cfg second).
      * destruct (t <? 0.5)%float; intros [= <-]; auto.
      * destruct second as [n2 | d2 | s2 | ts2 | i2]; simpl; try discriminate.
        destruct (static_cast_int64 _); simpl; try discriminate.
        intros [= <-]. right; right. split; [ | reflexivity ].
        apply is_property_null_not_null. discriminate.
    + unfold InterpolateProperties.visit_double. simpl.
      destruct second as [n2 | d2 | s2 | ts2 | i2]; simpl; try discriminate.
      intros [= <-]. right; right. split; [ reflexivity | ].
      unfold property_underlying_type. simpl.
      destruct (PROPERTY_VALUE_INCLUDES_INTEGER cfg); [ | reflexivity ].
      discriminate (Hcfg eq_refl).
Qed.

(** When the visitor call throws. *)
Lemma apply_visitor_throws (first second : PropertyValueT) (t : float) :
  (which first = 4%nat -> PROPERTY_VALUE_INCLUDES_INT cfg = true) ->
  InterpolateProperties.apply_visitor cfg
    (InterpolateProperties.Build_visitor t second) first = Throws bad_get
  <-> (which first <> 0%nat /\ which second <> which first
       /\ (which first = 1%nat \/ which second <> 0%nat)).
Proof.
  intros Hint.
  destruct first as [n1 | d1 | s1 | ts1 | i1]; simpl.
  - unfold InterpolateProperties.visit_NullValue. simpl.
    destruct (t <? 0.5)%float; throws_iff.
  - unfold InterpolateProperties.visit_double. simpl.
    destruct second as [n2 | d2 | s2 | ts2 | i2]; simpl; throws_iff.
  - unfold InterpolateProperties.visit_string. simpl.
    rewrite is_property_null_which.
    destruct second as [n2 | d2 | s2 | ts2 | i2]; simpl;
      split_midpoint t; throws_iff.
  - unfold InterpolateProperties.visit_Timestamp. simpl.
    rewrite is_property_null_which.
    destruct second as [n2 | d2 | s2 | ts2 | i2]; simpl;
      split_midpoint t; try throws_iff.
    destruct (static_cast_int64 _) as [us | e | ] eqn:Ecast; simpl;
      [ | now elim (static_cast_int64_no_throw _ _ Ecast) | ]; throws_iff.
  - rewrite (Hint eq_refl).
    unfold InterpolateProperties.visit_int64. simpl.
    rewrite is_property_null_which.
    destruct second as [n2 | d2 | s2 | ts2 | i2]; simpl;
      split_midpoint t; try throws_iff.
    destruct (static_cast_int64 _) as [z | e | ] eqn:Ecast; simpl;
      [ | now elim (static_cast_int64_no_throw _ _ Ecast) | ]; throws_iff.
Qed.

(** Undefined behaviour is confined to the two casts. *)
Lemma apply_visitor_undefined (first second : PropertyValueT) (t : float) :
  InterpolateProperties.apply_visitor cfg
    (InterpolateProperties.Build_visitor t second) first = Undefined ->
  (which first = 3%nat \/ which first = 4%nat) /\ which second = which first.
Proof.
  destruct first as [n1 | d1 | s1 | ts1 | i1]; simpl.
  - unfold InterpolateProperties.visit_NullValue. simpl.
    destruct (t <? 0.5)%float; discriminate.
  - unfold InterpolateProperties.visit_double. simpl.
    destruct second; discriminate.
  - unfold InterpolateProperties.visit_string. simpl.
    destruct (is_property_null cfg second); [ discriminate | ].
    destruct second; simpl; try discriminate.
    destruct (t <? 0.5)%float; discriminate.
  - unfold InterpolateProperties.visit_Timestamp. simpl.
    destruct (is_property_null cfg second); [ discriminate | ].
    destruct second; simpl; try discriminate. auto.
  - destruct (PROPERTY_VALUE_INCLUDES_INT cfg).
    + unfold InterpolateProperties.visit_int64. simpl.
      destruct (is_property_null cfg second); [ discriminate | ].
      destruct second; simpl; try discriminate. auto.
    + unfold InterpolateProperties.visit_double. simpl.
      destruct second; discriminate.
Qed.

End Outcomes.

(** X4: a call never manufactures another kind of value.  With the integer
    feature configured consistently, whatever [interpolate_property] or
    [extrapolate_property] returns is [first], or [second], or a non-null
    value with the tag of [first]. *)
Theorem interpolation_result_provenance
  (cfg : Config) (first second v : PropertyValueT) (t : float) :
  feature_consistent cfg ->
  interpolate_property cfg first second t = Returns v
  \/ extrapolate_property cfg first second t = Returns v ->
  v = first \/ v = second
  \/ (is_property_null cfg v = false
      /\ property_underlying_type cfg v = property_underlying_type cfg first).
Proof.
  intros Hcfg [H | H].
  - unfold interpolate_property in H.
    destruct (t <=? 0)%float; [ injection H as <-; auto | ].
    destruct (1 <=? t)%float; [ injection H as <-; auto | ].
    exact (apply_visitor_provenance cfg first second v t Hcfg H).
  - exact (apply_visitor_provenance cfg first second v t Hcfg H).
Qed.

Lemma interpolation_result_provenance_witness :
  VTimestamp 30 = VTimestamp 20 \/ VTimestamp 30 = VTimestamp 40
  \/ (is_property_null integer_enabled (VTimestamp 30) = false
      /\ property_underlying_type integer_enabled (VTimestamp 30)
         = property_underlying_type integer_enabled (VTimestamp 20)).
Proof.
  apply (interpolation_result_provenance integer_enabled
           (VTimestamp 20) (VTimestamp 40) (VTimestamp 30) 0.5%float).
  - intros _. reflexivity.
  - left. reflexivity.
Defined.

(** X5: how a call can fail.  [extrapolate_property] throws [bad_get]
    exactly when [first] is not null, [second] holds another alternative and
    either [first] is a real or [second] is not null; [interpolate_property]
    throws in the same cases, and only strictly inside the unit interval.
    Undefined behaviour needs two timestamps or two integers: it can only
    come from the cast of the scaled value. *)
Theorem interpolation_failure_modes
  (cfg : Config) (first second : PropertyValueT) (t : float) :
  (which first = 4%nat -> PROPERTY_VALUE_INCLUDES_INT cfg = true) ->
  (extrapolate_property cfg first second t = Throws bad_get
   <-> (which first <> 0%nat /\ which second <> which first
        /\ (which first = 1%nat \/ which second <> 0%nat)))
  /\ (interpolate_property cfg first second t = Throws bad_get
      <-> ((t <=? 0)%float = false /\ (1 <=? t)%float = false
           /\ which first <> 0%nat /\ which second <> which first
           /\ (which first = 1%nat \/ which second <> 0%nat)))
  /\ (interpolate_property cfg first second t = Undefined
      \/ extrapolate_property cfg first second t = Undefined ->
      (which first = 3%nat \/ which first = 4%nat)
      /\ which second = which first).
Proof.
  intros Hint. pose proof (apply_visitor_throws cfg first second t Hint) as Hthrow.
  split; [ exact Hthrow | ]. split.
  - unfold interpolate_property.
    destruct (t <=? 0)%float; [ split; [ discriminate | intros [H _]; discriminate H ] | ].
    destruct (1 <=? t)%float;
      [ split; [ discriminate | intros [_ [H _]]; discriminate H ] | ].
    rewrite Hthrow. tauto.
  - intros [H | H]; [ | exact (apply_visitor_undefined cfg first second t H) ].
    unfold interpolate_property in H.
    destruct (t <=? 0)%float; [ discriminate H | ].
    destruct (1 <=? t)%float; [ discriminate H | ].
    exact (apply_visitor_undefined cfg first second t H).
Qed.

Lemma interpolation_failure_modes_witness :
  extrapolate_property integer_enabled
    (VInteger 3) (VReal 1) 7 = Throws bad_get.
Proof.
  apply (proj1 (interpolation_failure_modes integer_enabled
                  (VInteger 3) (VReal 1) 7%float (fun _ => eq_refl))).
  split; [ discriminate | ]. split; [ discriminate | ]. right. discriminate.
Defined.

(** X6: interpolating a value with itself.  Strictly inside the unit
    interval a null, a string or a timestamp paired with itself is returned
    unchanged.  The numeric tags do not have this property: [Real 0.3] with
    itself at 0.1 gives a larger real, and with the integer overload
    [Integer 10] with itself at 0.5 gives [Integer 15]. *)
Theorem interpolate_same_value (cfg : Config) :
  (forall (v : PropertyValueT) (t : float),
      which v = 0%nat \/ which v = 2%nat \/ which v = 3%nat ->
      (0 <? t)%float = true -> (t <? 1)%float = true ->
      interpolate_property cfg v v t = Returns v)
  /\ interpolate_property cfg (VReal 0.3) (VReal 0.3) 0.1
     = Returns (VReal 0.30000000000000004)
  /\ (0.3 <? 0.30000000000000004)%float = true
  /\ (PROPERTY_VALUE_INCLUDES_INT cfg = true ->
      interpolate_property cfg (VInteger 10) (VInteger 10) 0.5
      = Returns (VInteger 15)).
Proof.
  split; [ | split; [ reflexivity | split; [ reflexivity | ] ] ].
  - intros v t Hv H0 H1.
    destruct v as [n | d | s | ts | i]; simpl in Hv;
      try (exfalso; destruct Hv as [Hv | [Hv | Hv]]; discriminate Hv).
    + rewrite (interpolate_property_interior cfg _ _ t H0 H1). simpl.
      unfold InterpolateProperties.visit_NullValue. simpl.
      now destruct (t <? 0.5)%float.
    + rewrite (interpolate_property_interior cfg _ _ t H0 H1). simpl.
      unfold InterpolateProperties.visit_string. simpl.
      now destruct (t <? 0.5)%float.
    + rewrite (interpolate_property_timestamps cfg ts ts t H0 H1).
      rewrite Z.sub_diag.
      destruct (static_cast_scaled_exact_duration 0 t) as (us & -> & Hus & _);
        [ reflexivity | assumption | assumption | ].
      simpl. f_equal. f_equal. lia.
  - intros Hint.
    rewrite (interpolate_property_interior cfg _ _ 0.5%float eq_refl eq_refl).
    simpl. rewrite Hint.
    unfold InterpolateProperties.visit_int64. simpl.
    rewrite (is_property_null_not_null cfg (VInteger 10)) by discriminate.
    reflexivity.
Qed.

Lemma interpolate_same_value_witness :
  interpolate_property integer_enabled (VTimestamp 77) (VTimestamp 77) 0.3
  = Returns (VTimestamp 77)
  /\ interpolate_property integer_enabled (VInteger 10) (VInteger 10) 0.5
     = Returns (VInteger 15).
Proof.
  split.
  - apply (proj1 (interpolate_same_value integer_enabled) (VTimestamp 77) 0.3%float).
    + right; right. reflexivity.
    + reflexivity.
    + reflexivity.
  - apply (proj2 (proj2 (proj2 (interpolate_same_value integer_enabled)))).
    reflexivity.
Defined.

(** X7: an interpolated timestamp stays between its endpoints.  For two
    timestamps less than 2^53 microseconds apart, in either order, and [t]
    strictly inside the unit interval, the call returns a timestamp no
    earlier than the earlier and no later than the later of the two. *)
Theorem interpolate_timestamp_within
  (cfg : Config) (value1 value2 : Timestamp) (t : float) :
  exact_gap value1 value2 ->
  (0 <? t)%float = true -> (t <? 1)%float = true ->
  exists r : Timestamp,
    interpolate_property cfg (VTimestamp value1) (VTimestamp value2) t
    = Returns (VTimestamp r)
    /\ Z.min value1 value2 <= r <= Z.max value1 value2.
Proof.
  intros Hgap H0 H1.
  destruct (static_cast_scaled_exact_duration (value2 - value1) t Hgap H0 H1)
    as (us & Eus & Hpos & Hneg).
  exists (value1 + us).
  rewrite (interpolate_property_timestamps cfg value1 value2 t H0 H1), Eus.
  split; [ reflexivity | lia ].
Qed.

Lemma interpolate_timestamp_within_witness :
  exists r : Timestamp,
    interpolate_property integer_disabled (VTimestamp 100) (VTimestamp 40) 0.3
    = Returns (VTimestamp r)
    /\ Z.min 100 40 <= r <= Z.max 100 40.
Proof.
  apply (interpolate_timestamp_within integer_disabled 100 40 0.3%float);
    reflexivity.
Defined.

(** X8: the midpoint of two timestamps is exact.  For two timestamps less
    than 2^53 microseconds apart, the call at [t = 0.5] returns [first] plus
    half their distance, the half rounded towards [first]. *)
Theorem interpolate_timestamp_midpoint_exact
  (cfg : Config) (value1 value2 : Timestamp) :
  exact_gap value1 value2 ->
  interpolate_property cfg (VTimestamp value1) (VTimestamp value2) 0.5
  = Returns (VTimestamp (value1 + Z.quot (value2 - value1) 2)).
Proof.
  intros Hgap.
  rewrite (interpolate_property_timestamps cfg value1 value2 0.5%float eq_refl eq_refl).
  now rewrite (static_cast_half_exact_duration (value2 - value1) Hgap).
Qed.

Lemma interpolate_timestamp_midpoint_exact_witness :
  interpolate_property integer_disabled (VTimestamp 10) (VTimestamp 3) 0.5
  = Returns (VTimestamp (10 + Z.quot (3 - 10) 2)).
Proof.
  apply (interpolate_timestamp_midpoint_exact integer_disabled 10 3). reflexivity.
Defined.

(** X9: extrapolation of timestamps is exact at whole steps.  For two
    timestamps less than 2^53 microseconds apart, [extrapolate_property]
    returns [first] at [t = 0], [second] at [t = 1] (without the shortcut of
    the interpolator) and [second] moved on by their distance at [t = 2]. *)
Theorem extrapolate_timestamp_whole_steps
  (cfg : Config) (value1 value2 : Timestamp) :
  exact_gap value1 value2 ->
  extrapolate_property cfg (VTimestamp value1) (VTimestamp value2) 0
  = Returns (VTimestamp value1)
  /\ extrapolate_property cfg (VTimestamp value1) (VTimestamp value2) 1
     = Returns (VTimestamp value2)
  /\ extrapolate_property cfg (VTimestamp value1) (VTimestamp value2) 2
     = Returns (VTimestamp (value2 + (value2 - value1))).
Proof.
  intros Hgap.
  destruct (static_cast_whole_steps (value2 - value1) Hgap) as (E0 & E1 & E2).
  assert (Hgen : forall t : float,
             extrapolate_property cfg (VTimestamp value1) (VTimestamp value2) t
             = (us <- static_cast_int64 (int64_to_double (value2 - value1) * t) ;;
                Returns (VTimestamp (value1 + us)))) by reflexivity.
  rewrite !Hgen, E0, E1, E2. unfold bind.
  split; [ | split ]; f_equal; f_equal; lia.
Qed.

Lemma extrapolate_timestamp_whole_steps_witness :
  extrapolate_property integer_disabled (VTimestamp 5) (VTimestamp 12) 2
  = Returns (VTimestamp (12 + (12 - 5))).
Proof.
  apply (proj2 (proj2 (extrapolate_timestamp_whole_steps integer_disabled 5 12
                         eq_refl))).
Defined.

(** ** The typed dispatch templates *)

Section TypedDispatch.

Variable interpolate : forall T : value_type, payload T -> payload T -> float -> outcome (payload T).
Variable extrapolate : forall T : value_type, payload T -> payload T -> float -> outcome (payload T).
Variable cfg : Config.

Lemma ltb_asym (x y : float) : (x <? y)%float = true -> (y <? x)%float = false.
Proof.
  rewrite !ltb_spec. unfold SFltb.
  rewrite (SFcompare_antisym (Prim2SF x) (Prim2SF y)).
  destruct (SFcompare (Prim2SF x) (Prim2SF y)) as [[ | | ] | ]; simpl;
    congruence.
Qed.

(** [boost::get] after construction gives the payload back. *)
Lemma get_pointer_construct (T : value_type) (a : payload T) :
  get_pointer T (construct T a) = Some a.
Proof. destruct T; reflexivity. Qed.

Lemma construct_not_null (T : value_type) (a : payload T) :
  T <> vt_NullValue -> is_property_null cfg (construct T a) = false.
Proof. destruct T; intros HT; try reflexivity. now elim HT. Qed.

Lemma get_pointer_null (T : value_type) (v : PropertyValueT) :
  T <> vt_NullValue -> is_property_null cfg v = true -> get_pointer T v = None.
Proof.
  intros HT Hv. apply is_property_null_VNull in Hv. destruct Hv as [n ->].
  destruct T; try reflexivity. now elim HT.
Qed.

Lemma dereference_first_null (T : value_type) (first second : PropertyValueT)
  (f : payload T -> payload T -> outcome PropertyValueT) :
  get_pointer T first = None \/ get_pointer T second = None ->
  (a <- dereference (get_pointer T first) ;;
   b <- dereference (get_pointer T second) ;; f a b) = Undefined.
Proof.
  intros [H | H]; rewrite H; simpl; [ reflexivity | ].
  now destruct (get_pointer T first).
Qed.

End TypedDispatch.

(** X10: [dispatch_interpolate] with a null operand.  A null [first] below
    the midpoint and a null [second] above it are returned as they are.  In
    every other case with a null operand, for a non-null [value_type], the
    call dereferences the null pointer [boost::get] returned, which is
    undefined: so for a null [first] from the midpoint on, for a null
    [second] up to the midpoint, and for any null operand at [t = 0.5]. *)
Theorem dispatch_interpolate_null_operand
  (interpolate : forall T : value_type,
      payload T -> payload T -> float -> outcome (payload T))
  (cfg : Config) (T : value_type) (first second : PropertyValueT) (t : float) :
  (is_property_null cfg first = true -> (t <? 0.5)%float = true ->
   dispatch_interpolate_apply interpolate cfg T first second t = Returns first)
  /\ (is_property_null cfg second = true -> (0.5 <? t)%float = true ->
      dispatch_interpolate_apply interpolate cfg T first second t = Returns second)
  /\ (T <> vt_NullValue ->
      is_property_null cfg first = true -> (t <? 0.5)%float = false ->
      is_property_null cfg second = false ->
      dispatch_interpolate_apply interpolate cfg T first second t = Undefined)
  /\ (T <> vt_NullValue ->
      is_property_null cfg second = true -> (0.5 <? t)%float = false ->
      is_property_null cfg first = false ->
      dispatch_interpolate_apply interpolate cfg T first second t = Undefined)
  /\ (T <> vt_NullValue ->
      is_property_null cfg first = true \/ is_property_null cfg second = true ->
      dispatch_interpolate_apply interpolate cfg T first second 0.5 = Undefined).
Proof.
  unfold dispatch_interpolate_apply.
  split; [ | split; [ | split; [ | split ] ] ].
  - intros -> ->. reflexivity.
  - intros Hn Ht. rewrite Hn, Ht, (ltb_asym _ _ Ht), andb_false_r. reflexivity.
  - intros HT Hn1 Ht Hn2. rewrite Hn1, Ht, Hn2. simpl.
    apply dereference_first_null. left. now apply (get_pointer_null cfg).
  - intros HT Hn2 Ht Hn1. rewrite Hn1, Hn2, Ht. simpl.
    apply dereference_first_null. right. now apply (get_pointer_null cfg).
  - intros HT Hn.
    change (0.5 <? 0.5)%float with false. rewrite !andb_false_r.
    apply dereference_first_null.
    destruct Hn as [Hn | Hn]; [ left | right ]; now apply (get_pointer_null cfg).
Qed.

Lemma dispatch_interpolate_null_operand_witness :
  dispatch_interpolate_apply (fun T a _ _ => Returns a) integer_disabled vt_double
    (VNull (Build_NullValue TYPE_REAL)) (VReal 5) 0.75
  = Undefined.
Proof.
  apply (proj1 (proj2 (proj2 (dispatch_interpolate_null_operand
                                (fun T a _ _ => Returns a) integer_disabled vt_double
                                (VNull (Build_NullValue TYPE_REAL)) (VReal 5)
                                0.75%float))));
    try reflexivity.
  discriminate.
Defined.

(** X11: the typed dispatch on non-null operands.  Two operands that hold
    [value_type] are handed to the underlying function and its result is
    wrapped again, for every [t]; an operand that holds another alternative
    makes [dispatch_extrapolate], and [dispatch_interpolate] on non-null
    operands, dereference a null pointer: the outcome is undefined, not an
    exception. *)
Theorem dispatch_typed_operands
  (interpolate extrapolate : forall T : value_type,
      payload T -> payload T -> float -> outcome (payload T))
  (cfg : Config) (T : value_type) :
  (forall (a b : payload T) (t : float),
      dispatch_extrapolate_apply extrapolate T (construct T a) (construct T b) t
      = (result <- extrapolate T a b t ;; Returns (construct T result)))
  /\ (forall (first second : PropertyValueT) (t : float),
      get_pointer T first = None \/ get_pointer T second = None ->
      dispatch_extrapolate_apply extrapolate T first second t = Undefined)
  /\ (T <> vt_NullValue ->
      forall (a b : payload T) (t : float),
        dispatch_interpolate_apply interpolate cfg T (construct T a) (construct T b) t
        = (result <- interpolate T a b t ;; Returns (construct T result)))
  /\ (forall (first second : PropertyValueT) (t : float),
      is_property_null cfg first = false -> is_property_null cfg second = false ->
      get_pointer T first = None \/ get_pointer T second = None ->
      dispatch_interpolate_apply interpolate cfg T first second t = Undefined).
Proof.
  split; [ | split; [ | split ] ].
  - intros a b t. unfold dispatch_extrapolate_apply.
    now rewrite !get_pointer_construct.
  - intros first second t H. unfold dispatch_extrapolate_apply.
    now apply dereference_first_null.
  - intros HT a b t. unfold dispatch_interpolate_apply.
    rewrite !(construct_not_null cfg T _ HT), !get_pointer_construct.
    reflexivity.
  - intros first second t Hn1 Hn2 H. unfold dispatch_interpolate_apply.
    rewrite Hn1, Hn2. simpl. now apply dereference_first_null.
Qed.

Lemma dispatch_typed_operands_witness :
  dispatch_extrapolate_apply (fun T a _ _ => Returns a) vt_string
    (VString "a") (VReal 1) 2
  = Undefined
  /\ dispatch_interpolate_apply (fun T _ b _ => Returns b) integer_disabled vt_double
       (VReal 1) (VReal 2) 0.5
     = Returns (VReal 2).
Proof.
  pose proof (dispatch_typed_operands
                (fun T _ b _ => Returns b) (fun T a _ _ => Returns a)
                integer_disabled) as H.
  split.
  - apply (proj1 (proj2 (H vt_string)) (VString "a") (VReal 1) 2%float).
    right. reflexivity.
  - apply (proj1 (proj2 (proj2 (H vt_double))) ltac:(discriminate) 1%float 2%float 0.5%float).
Defined.

(** ** A NaN interpolant, and the midpoint *)

Section SpecialInterpolants.

Lemma is_nan_Prim2SF (t : float) : is_nan t = true -> Prim2SF t = S754_nan.
Proof.
  unfold is_nan. rewrite eqb_spec. unfold SFeqb.
  destruct (Prim2SF t) as [s | s | | s m e]; simpl; try reflexivity;
    try (destruct s; discriminate).
  rewrite Z.compare_refl, Pos.compare_cont_refl. destruct s; discriminate.
Qed.

Lemma Prim2SF_is_nan (r : float) : Prim2SF r = S754_nan -> is_nan r = true.
Proof. intros H. unfold is_nan. rewrite eqb_spec, H. reflexivity. Qed.

(** Every comparison with a NaN is false. *)
Lemma nan_comparisons (t x : float) :
  is_nan t = true ->
  (t <=? x)%float = false /\ (x <=? t)%float = false /\ (t <? x)%float = false.
Proof.
  intros Ht. apply is_nan_Prim2SF in Ht.
  rewrite !leb_spec, ltb_spec, Ht. unfold SFleb, SFltb.
  destruct (Prim2SF x); auto.
Qed.

Lemma SFmul_nan_r (x : spec_float) : SFmul prec emax x S754_nan = S754_nan.
Proof. destruct x; reflexivity. Qed.

Lemma SFadd_comm (x y : spec_float) : SFadd prec emax x y = SFadd prec emax y x.
Proof.
  destruct x as [sx | sx | | sx mx ex], y as [sy | sy | | sy my ey];
    try reflexivity;
    try (destruct sx, sy; reflexivity).
  unfold SFadd. rewrite (Z.min_comm ey ex). f_equal. apply Z.add_comm.
Qed.

End SpecialInterpolants.

(** X12: a NaN interpolant is not caught by the boundary tests.  Both tests
    of [interpolate_property] are false for a NaN, so the call is the
    visitor call of [extrapolate_property]: a null [first] and a string
    [first] (with a string or null [second]) give [second], two reals give a
    NaN, and two timestamps cast a NaN to an integer, which is undefined. *)
Theorem interpolate_nan_interpolant (cfg : Config) (t : float) :
  is_nan t = true ->
  (forall first second : PropertyValueT,
      interpolate_property cfg first second t
      = extrapolate_property cfg first second t)
  /\ (forall (n : NullValue) (second : PropertyValueT),
      interpolate_property cfg (VNull n) second t = Returns second)
  /\ (forall (s1 : string) (second : PropertyValueT),
      which second = 0%nat \/ which second = 2%nat ->
      interpolate_property cfg (VString s1) second t = Returns second)
  /\ (forall a b : float,
      exists r : float,
        interpolate_property cfg (VReal a) (VReal b) t = Returns (VReal r)
        /\ is_nan r = true)
  /\ (forall value1 value2 : Timestamp,
      interpolate_property cfg (VTimestamp value1) (VTimestamp value2) t
      = Undefined).
Proof.
  intros Ht.
  destruct (nan_comparisons t 0 Ht) as (L0 & _ & _).
  destruct (nan_comparisons t 1 Ht) as (_ & L1 & _).
  destruct (nan_comparisons t 0.5 Ht) as (_ & _ & Lhalf).
  assert (Hext : forall first second : PropertyValueT,
             interpolate_property cfg first second t
             = extrapolate_property cfg first second t).
  { intros first second. unfold interpolate_property. now rewrite L0, L1. }
  split; [ exact Hext | ]. split; [ | split; [ | split ] ].
  - intros n second. rewrite Hext. unfold extrapolate_property. simpl.
    unfold InterpolateProperties.visit_NullValue. simpl. now rewrite Lhalf.
  - intros s1 second Hsecond. rewrite Hext. unfold extrapolate_property. simpl.
    unfold InterpolateProperties.visit_string. simpl.
    rewrite is_property_null_which, Lhalf.
    destruct second as [n2 | d2 | s2 | ts2 | i2]; simpl in *; try reflexivity;
      destruct Hsecond as [Hs | Hs]; discriminate Hs.
  - intros a b. exists ((1 - t) * a + t * b)%float.
    rewrite Hext. split; [ reflexivity | ].
    apply Prim2SF_is_nan.
    rewrite add_spec, (mul_spec t b), (is_nan_Prim2SF t Ht).
    rewrite mul_spec, sub_spec, (is_nan_Prim2SF t Ht).
    unfold SF64add, SF64mul, SF64sub.
    destruct (Prim2SF 1), (Prim2SF a), (Prim2SF b); reflexivity.
  - intros value1 value2. rewrite Hext. unfold extrapolate_property. simpl.
    unfold InterpolateProperties.visit_Timestamp. simpl.
    unfold static_cast_int64.
    rewrite mul_spec, (is_nan_Prim2SF t Ht). unfold SF64mul.
    rewrite SFmul_nan_r. reflexivity.
Qed.

Lemma interpolate_nan_interpolant_witness :
  interpolate_property integer_disabled (VTimestamp 1) (VTimestamp 9) nan = Undefined.
Proof.
  apply (proj2 (proj2 (proj2 (proj2
           (interpolate_nan_interpolant integer_disabled nan eq_refl))))).
Defined.

(** X13: the midpoint.  At [t = 0.5] the blend of two reals does not depend
    on their order, while the snap of two strings does: the midpoint itself
    belongs to [second]. *)
Theorem interpolate_midpoint_order (cfg : Config) :
  (forall a b : float,
      interpolate_property cfg (VReal a) (VReal b) 0.5
      = interpolate_property cfg (VReal b) (VReal a) 0.5)
  /\ (forall s1 s2 : string,
      interpolate_property cfg (VString s1) (VString s2) 0.5 = Returns (VString s2)
      /\ interpolate_property cfg (VString s2) (VString s1) 0.5
         = Returns (VString s1)).
Proof.
  split.
  - intros a b.
    rewrite !(interpolate_property_interior cfg _ _ 0.5%float eq_refl eq_refl).
    simpl. unfold InterpolateProperties.visit_double. simpl.
    change (1 - 0.5)%float with 0.5%float.
    do 2 f_equal. apply Prim2SF_inj. rewrite !add_spec. apply SFadd_comm.
  - intros s1 s2. split; reflexivity.
Qed.

(** * The casts, stated through the integer part *)

Section IntegerPart.

Lemma integer_part_shiftl (s : bool) (m : positive) (e : Z) :
  cond_Zopp s (Z.shiftl (Z.pos m) e) = integer_part s m e.
Proof.
  unfold integer_part. destruct (Z_le_gt_dec 0 e) as [Hnn | Hneg].
  - rewrite Z.max_l, Z.max_r by lia. change (2 ^ 0) with 1.
    rewrite Z.quot_1_r, Z.shiftl_mul_pow2 by lia.
    destruct s; unfold cond_Zopp; [ | reflexivity ].
    now rewrite Z.mul_opp_l.
  - rewrite Z.max_r, Z.max_l by lia. change (2 ^ 0) with 1.
    rewrite Z.mul_1_r, Z.shiftl_div_pow2 by lia.
    assert (HP : 0 < 2 ^ (- e)) by (apply Z.pow_pos_nonneg; lia).
    destruct s; simpl cond_Zopp.
    + change (Z.neg m) with (- Z.pos m). rewrite Z.quot_opp_l by lia.
      f_equal. symmetry. apply Z.quot_div_nonneg; lia.
    + symmetry. apply Z.quot_div_nonneg; lia.
Qed.

(** [static_cast<int64_t>] of a finite double is its integer part when that
    fits, and undefined otherwise. *)
Lemma static_cast_int64_finite (x : float) (s : bool) (m : positive) (e : Z) :
  Prim2SF x = S754_finite s m e ->
  (int64_min <= integer_part s m e <= int64_max ->
   static_cast_int64 x = Returns (integer_part s m e))
  /\ (~ int64_min <= integer_part s m e <= int64_max ->
      static_cast_int64 x = Undefined).
Proof.
  intros Hx. unfold static_cast_int64. rewrite Hx. simpl truncate.
  rewrite integer_part_shiftl.
  destruct (Z.leb_spec int64_min (integer_part s m e)) as [Hlo | Hlo];
    destruct (Z.leb_spec (integer_part s m e) int64_max) as [Hhi | Hhi]; simpl;
    split; intros Hrange; try reflexivity; lia.
Qed.

Lemma static_cast_int64_zero (x : float) (s : bool) :
  Prim2SF x = S754_zero s -> static_cast_int64 x = Returns 0.
Proof. intros Hx. unfold static_cast_int64. rewrite Hx. reflexivity. Qed.

Lemma static_cast_int64_not_finite (x : float) :
  Prim2SF x = S754_nan \/ (exists s, Prim2SF x = S754_infinity s) ->
  static_cast_int64 x = Undefined.
Proof.
  intros [Hx | [s Hx]]; unfold static_cast_int64; rewrite Hx; reflexivity.
Qed.

(** What a defined cast returns. *)
Lemma static_cast_int64_returns (x : float) (z : Z) :
  static_cast_int64 x = Returns z ->
  (exists s, Prim2SF x = S754_zero s /\ z = 0)
  \/ (exists s m e, Prim2SF x = S754_finite s m e
                    /\ z = integer_part s m e
                    /\ int64_min <= z <= int64_max).
Proof.
  destruct (Prim2SF x) as [s | s | | s m e] eqn:Hx; intros H.
  - left. exists s. split; [ reflexivity | ].
    rewrite (static_cast_int64_zero x s Hx) in H. now injection H.
  - rewrite (static_cast_int64_not_finite x) in H; [ discriminate | eauto ].
  - rewrite (static_cast_int64_not_finite x) in H; [ discriminate | eauto ].
  - right. exists s, m, e. split; [ reflexivity | ].
    destruct (static_cast_int64_finite x s m e Hx) as [Hin Hout].
    destruct (Z_le_dec int64_min (integer_part s m e)) as [Hlo | Hlo];
      [ destruct (Z_le_dec (integer_part s m e) int64_max) as [Hhi | Hhi] | ];
      try (rewrite Hout in H by lia; discriminate).
    rewrite Hin in H by lia. injection H as <-. lia.
Qed.

(** A double that holds an integer below 2^53 has that integer as its
    integer part. *)
Lemma integer_part_exact (d : Z) (m : positive) (e : Z) :
  e <= 0 -> Z.pos m = Z.abs d * 2 ^ (- e) ->
  integer_part (d <? 0) m e = d.
Proof.
  intros He Hm. rewrite <- integer_part_shiftl.
  rewrite Z.shiftl_div_pow2, Hm, Z.div_mul by (try apply Z.pow_nonzero; lia).
  destruct (Z.ltb_spec d 0); simpl; lia.
Qed.

Variable cfg : Config.

(** The visitor call on two timestamps and on two integers, for every [t]. *)
Lemma apply_visitor_timestamps (value1 value2 : Timestamp) (t : float) :
  InterpolateProperties.apply_visitor cfg
    (InterpolateProperties.Build_visitor t (VTimestamp value2)) (VTimestamp value1)
  = (us <- static_cast_int64 (int64_to_double (value2 - value1) * t) ;;
     Returns (VTimestamp (value1 + us))).
Proof. reflexivity. Qed.

Lemma apply_visitor_integers (value1 value2 : Z) (t : float) :
  PROPERTY_VALUE_INCLUDES_INT cfg = true ->
  InterpolateProperties.apply_visitor cfg
    (InterpolateProperties.Build_visitor t (VInteger value2)) (VInteger value1)
  = (result <- static_cast_int64
                 ((1 - t) * int64_to_double value1
                  + (t + int64_to_double value2))%float ;;
     Returns (VInteger result)).
Proof.
  intros Hint. simpl. rewrite Hint.
  unfold InterpolateProperties.visit_int64. simpl.
  rewrite (is_property_null_not_null cfg (VInteger value2)) by discriminate.
  reflexivity.
Qed.

(** Mismatched non-null tags with the integer feature configured
    consistently. *)
Lemma mismatch_throws_consistent (first second : PropertyValueT) (t : float) :
  feature_consistent cfg ->
  is_property_null cfg first = false ->
  is_property_null cfg second = false ->
  property_underlying_type cfg first <> property_underlying_type cfg second ->
  (0 <? t)%float = true -> (t <? 1)%float = true ->
  interpolate_property cfg first second t = Throws bad_get.
Proof.
  intros Hcfg Hn1 Hn2 Htag H0 H1.
  rewrite (interpolate_property_interior cfg first second t H0 H1).
  unfold feature_consistent in Hcfg.
  destruct first as [n1 | d1 | s1 | ts1 | i1]; simpl.
  - discriminate Hn1.
  - destruct second as [n2 | d2 | s2 | ts2 | i2]; try reflexivity.
    now elim Htag.
  - unfold InterpolateProperties.visit_string. simpl. rewrite Hn2.
    destruct second as [n2 | d2 | s2 | ts2 | i2]; try reflexivity.
    now elim Htag.
  - unfold InterpolateProperties.visit_Timestamp. simpl. rewrite Hn2.
    destruct second as [n2 | d2 | s2 | ts2 | i2]; try reflexivity.
    now elim Htag.
  - destruct (PROPERTY_VALUE_INCLUDES_INT cfg) eqn:Eint.
    + unfold InterpolateProperties.visit_int64. simpl. rewrite Hn2.
      destruct second as [n2 | d2 | s2 | ts2 | i2]; try reflexivity.
      now elim Htag.
    + destruct second as [n2 | d2 | s2 | ts2 | i2]; try reflexivity.
      exfalso. apply Htag. unfold property_underlying_type. simpl.
      destruct (PROPERTY_VALUE_INCLUDES_INTEGER cfg); [ | reflexivity ].
      discriminate (Hcfg eq_refl).
Qed.

End IntegerPart.

Example integer_part_rounds_towards_zero :
  integer_part false 3 (-1) = 1 /\ integer_part true 3 (-1) = -1
  /\ integer_part false 3 2 = 12 /\ integer_part true 1 (-3) = 0.
Proof. repeat split. Qed.

(** C10 (what the source does): mismatched non-null tags.  Where the two
    guards of the integer overloads are defined together (or only the one of
    the interpolator), a call inside the unit interval on non-null values of
    different tags throws [bad_get]: nothing is returned and nothing is
    coerced.  The guards are spelled differently, and in a build that defines
    only [PROPERTY_VALUE_INCLUDES_INTEGER] an integer [first] has tag
    [TYPE_INTEGER] but no overload of its own: it reaches the overload for
    doubles, and with a real [second] the call returns the blend of the
    converted integer and the real, as for [Integer 10], [Real 20.0] at 0.5,
    which give [Real 15.0]. *)
Theorem interpolate_mismatch_throws (cfg : Config) :
  (feature_consistent cfg ->
   forall (first second : PropertyValueT) (t : float),
     is_property_null cfg first = false ->
     is_property_null cfg second = false ->
     property_underlying_type cfg first <> property_underlying_type cfg second ->
     (0 <? t)%float = true -> (t <? 1)%float = true ->
     interpolate_property cfg first second t = Throws bad_get)
  /\ (PROPERTY_VALUE_INCLUDES_INT cfg = false ->
      PROPERTY_VALUE_INCLUDES_INTEGER cfg = true ->
      forall (value1 : Z) (value2 : float) (t : float),
        (0 <? t)%float = true -> (t <? 1)%float = true ->
        is_property_null cfg (VInteger value1) = false
        /\ is_property_null cfg (VReal value2) = false
        /\ property_underlying_type cfg (VInteger value1) = TYPE_INTEGER
        /\ property_underlying_type cfg (VReal value2) = TYPE_REAL
        /\ interpolate_property cfg (VInteger value1) (VReal value2) t
           = Returns (VReal (linear_blend t (int64_to_double value1) value2)))
  /\ interpolate_property (Build_Config false true) (VInteger 10) (VReal 20) 0.5
     = Returns (VReal 15).
Proof.
  split; [ | split ].
  - intros Hcfg first second t. now apply mismatch_throws_consistent.
  - intros Hint Hinteger value1 value2 t H0 H1.
    rewrite (interpolate_property_interior cfg _ _ t H0 H1).
    unfold is_property_null, property_underlying_type. simpl.
    rewrite Hint, Hinteger. repeat split.
  - reflexivity.
Qed.

Lemma interpolate_mismatch_throws_witness :
  (interpolate_property integer_enabled (VReal 1) (VString "x") 0.5 = Throws bad_get
   /\ interpolate_property integer_enabled (VTimestamp 5) (VInteger 3) 0.25
      = Throws bad_get)
  /\ interpolate_property (Build_Config false true) (VInteger 3) (VReal 4) 0.25
     = Returns (VReal 3.25).
Proof.
  split; [ split | ].
  - apply (proj1 (interpolate_mismatch_throws integer_enabled) (fun _ => eq_refl)
             (VReal 1) (VString "x") 0.5%float eq_refl eq_refl);
      [ discriminate | reflexivity | reflexivity ].
  - apply (proj1 (interpolate_mismatch_throws integer_enabled) (fun _ => eq_refl)
             (VTimestamp 5) (VInteger 3) 0.25%float eq_refl eq_refl);
      [ discriminate | reflexivity | reflexivity ].
  - apply (proj1 (proj2 (interpolate_mismatch_throws (Build_Config false true)))
             eq_refl eq_refl 3 4%float 0.25%float eq_refl eq_refl).
Defined.

(** C7: timestamps are interpolated through the duration between them.
    Inside the unit interval, with a timestamp [second], the call converts
    [delta_t = second - first], a number of microseconds, to a double
    (exactly, below 2^53), multiplies it by [t], and adds to [first] the
    integer part of the product, rounded towards zero: whenever the product
    is finite and its integer part fits an [int64_t] (the cast is undefined
    when it does not), and so for all instants a timestamp can hold.  [T0] and [T0 + 60 s] at 0.5 give
    [T0 + 30 s]; a typed null [second] snaps at the midpoint. *)
Theorem interpolate_timestamp_duration (cfg : Config) :
  (forall d : Z,
      Z.abs d < 2 ^ 53 -> d <> 0 ->
      exists (m : positive) (e : Z),
        Prim2SF (int64_to_double d) = S754_finite (d <? 0) m e
        /\ e <= 0 /\ Z.pos m = Z.abs d * 2 ^ (- e)
        /\ integer_part (d <? 0) m e = d)
  /\ (forall (value1 value2 : Timestamp) (t : float)
             (s : bool) (m : positive) (e : Z),
      (0 <? t)%float = true -> (t <? 1)%float = true ->
      Prim2SF (int64_to_double (value2 - value1) * t) = S754_finite s m e ->
      (int64_min <= integer_part s m e <= int64_max ->
       interpolate_property cfg (VTimestamp value1) (VTimestamp value2) t
       = Returns (VTimestamp (value1 + integer_part s m e)))
      /\ (~ int64_min <= integer_part s m e <= int64_max ->
          interpolate_property cfg (VTimestamp value1) (VTimestamp value2) t
          = Undefined))
  /\ (forall (value1 value2 : Timestamp) (t : float) (s : bool),
      (0 <? t)%float = true -> (t <? 1)%float = true ->
      Prim2SF (int64_to_double (value2 - value1) * t) = S754_zero s ->
      interpolate_property cfg (VTimestamp value1) (VTimestamp value2) t
      = Returns (VTimestamp value1))
  /\ (forall (value1 value2 : Timestamp) (t : float),
      Timestamp_in_range value1 -> Timestamp_in_range value2 ->
      (0 <? t)%float = true -> (t <? 1)%float = true ->
      exists us : Z,
        interpolate_property cfg (VTimestamp value1) (VTimestamp value2) t
        = Returns (VTimestamp (value1 + us))
        /\ Z.abs us <= 2 ^ 62
        /\ ((exists s,
                Prim2SF (int64_to_double (value2 - value1) * t) = S754_zero s
                /\ us = 0)
            \/ (exists s m e,
                   Prim2SF (int64_to_double (value2 - value1) * t)
                   = S754_finite s m e
                   /\ us = integer_part s m e)))
  /\ (forall T0 : Timestamp,
      interpolate_property cfg (VTimestamp T0) (VTimestamp (T0 + 60000000)) 0.5
      = Returns (VTimestamp (T0 + 30000000)))
  /\ (forall (value1 : Timestamp) (n : NullValue) (t : float),
      (0 <? t)%float = true -> (t <? 1)%float = true ->
      interpolate_property cfg (VTimestamp value1) (VNull n) t
      = Returns (if (t <? 0.5)%float then VTimestamp value1 else VNull n)).
Proof.
  pose proof (interpolate_property_timestamps cfg) as Hgen.
  split; [ | split; [ | split; [ | split; [ | split ] ] ] ].
  - intros d Hd Hnz.
    destruct (Prim2SF_int64_to_double_exact d Hd Hnz) as (m & e & Ed & _ & He & Hm).
    exists m, e. split; [ exact Ed | ]. split; [ lia | ]. split; [ exact Hm | ].
    apply integer_part_exact; [ lia | exact Hm ].
  - intros value1 value2 t s m e H0 H1 Hprod.
    rewrite (Hgen value1 value2 t H0 H1).
    destruct (static_cast_int64_finite _ s m e Hprod) as [Hin Hout].
    split; intros Hrange; [ now rewrite Hin | now rewrite Hout ].
  - intros value1 value2 t s H0 H1 Hprod.
    rewrite (Hgen value1 value2 t H0 H1), (static_cast_int64_zero _ s Hprod).
    unfold bind. do 2 f_equal. lia.
  - intros value1 value2 t [L1 U1] [L2 U2] H0 H1.
    destruct (static_cast_scaled_duration (value2 - value1) t) as (us & Eus & Hus);
      try assumption.
    { change (2 ^ 60) with 1152921504606846976 in *.
      change (2 ^ 62) with 4611686018427387904. lia. }
    exists us. rewrite (Hgen value1 value2 t H0 H1), Eus.
    split; [ reflexivity | ]. split; [ exact Hus | ].
    destruct (static_cast_int64_returns _ us Eus)
      as [(s & Hz & ->) | (s & m & e & Hf & -> & _)].
    + left. now exists s.
    + right. now exists s, m, e.
  - intros T0. rewrite (Hgen T0 (T0 + 60000000) 0.5%float eq_refl eq_refl).
    replace (T0 + 60000000 - T0) with 60000000 by lia. reflexivity.
  - intros value1 n t H0 H1.
    now rewrite (interpolate_property_interior cfg _ _ t H0 H1).
Qed.

Lemma interpolate_timestamp_duration_witness :
  interpolate_property integer_disabled (VTimestamp 1000) (VTimestamp 1007) 0.5
  = Returns (VTimestamp 1003)
  /\ (exists (m : positive) (e : Z),
         Prim2SF (int64_to_double (-7)) = S754_finite (-7 <? 0) m e
         /\ e <= 0 /\ Z.pos m = Z.abs (-7) * 2 ^ (- e)
         /\ integer_part (-7 <? 0) m e = -7).
Proof.
  split.
  - apply (proj1 (proj1 (proj2 (interpolate_timestamp_duration integer_disabled))
                    1000 1007 0.5%float false 7881299347898368%positive (-51)
                    eq_refl eq_refl ltac:(vm_compute; reflexivity))).
    split; discriminate.
  - apply (proj1 (interpolate_timestamp_duration integer_disabled) (-7)).
    + reflexivity.
    + discriminate.
Defined.

(** C3 as stated fails: the cast of the formula's value is undefined when
    its integer part exceeds [int64_t], as for 0 and the largest integer at
    0.5, whose value is the double 2^63. *)
Lemma interpolate_integer_overflow_undefined :
  interpolate_property integer_enabled (VInteger 0) (VInteger int64_max) 0.5
  = Undefined
  /\ ((1 - 0.5) * int64_to_double 0 + (0.5 + int64_to_double int64_max))%float
     = 9223372036854775808%float
  /\ int64_max < 9223372036854775808.
Proof. split; [ | split ]; vm_compute; reflexivity. Qed.

(** C3 (amended): with the integer overload compiled, two integers inside
    the unit interval give [static_cast<int64_t>] of the double
    [(1-t)*value1 + (t + value2)]: its integer part, rounded towards zero,
    whenever that fits an [int64_t], which it does for all integers below
    2^53 in magnitude; when it does not fit the cast is undefined.  This is
    the asymmetric formula of the source, not the linear blend: 10 and 20 at
    0.5 give 25, where the blend is 15. *)
Theorem interpolate_integer_asymmetric (cfg : Config) :
  PROPERTY_VALUE_INCLUDES_INT cfg = true ->
  (forall (value1 value2 : Z) (t : float) (s : bool) (m : positive) (e : Z),
      (0 <? t)%float = true -> (t <? 1)%float = true ->
      Prim2SF ((1 - t) * int64_to_double value1
               + (t + int64_to_double value2))%float = S754_finite s m e ->
      (int64_min <= integer_part s m e <= int64_max ->
       interpolate_property cfg (VInteger value1) (VInteger value2) t
       = Returns (VInteger (integer_part s m e)))
      /\ (~ int64_min <= integer_part s m e <= int64_max ->
          interpolate_property cfg (VInteger value1) (VInteger value2) t
          = Undefined))
  /\ (forall (value1 value2 : Z) (t : float) (s : bool),
      (0 <? t)%float = true -> (t <? 1)%float = true ->
      Prim2SF ((1 - t) * int64_to_double value1
               + (t + int64_to_double value2))%float = S754_zero s ->
      interpolate_property cfg (VInteger value1) (VInteger value2) t
      = Returns (VInteger 0))
  /\ (forall (value1 value2 : Z) (t : float),
      Z.abs value1 < 2 ^ 53 -> Z.abs value2 < 2 ^ 53 ->
      (0 <? t)%float = true -> (t <? 1)%float = true ->
      exists z : Z,
        interpolate_property cfg (VInteger value1) (VInteger value2) t
        = Returns (VInteger z)
        /\ Z.abs z <= 2 ^ 58
        /\ ((exists s,
                Prim2SF ((1 - t) * int64_to_double value1
                         + (t + int64_to_double value2))%float = S754_zero s
                /\ z = 0)
            \/ (exists s m e,
                   Prim2SF ((1 - t) * int64_to_double value1
                            + (t + int64_to_double value2))%float
                   = S754_finite s m e
                   /\ z = integer_part s m e)))
  /\ interpolate_property cfg (VInteger 10) (VInteger 20) 0.5 = Returns (VInteger 25)
  /\ linear_blend 0.5 (int64_to_double 10) (int64_to_double 20) = 15%float.
Proof.
  intros Hint.
  assert (Hgen : forall (value1 value2 : Z) (t : float),
             (0 <? t)%float = true -> (t <? 1)%float = true ->
             interpolate_property cfg (VInteger value1) (VInteger value2) t
             = (result <- static_cast_int64
                            ((1 - t) * int64_to_double value1
                             + (t + int64_to_double value2))%float ;;
                Returns (VInteger result))).
  { intros value1 value2 t H0 H1.
    rewrite (interpolate_property_interior cfg _ _ t H0 H1).
    now apply apply_visitor_integers. }
  split; [ | split; [ | split; [ | split ] ] ].
  - intros value1 value2 t s m e H0 H1 Hx.
    rewrite (Hgen value1 value2 t H0 H1).
    destruct (static_cast_int64_finite _ s m e Hx) as [Hin Hout].
    split; intros Hrange; [ now rewrite Hin | now rewrite Hout ].
  - intros value1 value2 t s H0 H1 Hx.
    now rewrite (Hgen value1 value2 t H0 H1), (static_cast_int64_zero _ s Hx).
  - intros value1 value2 t Hv1 Hv2 H0 H1.
    destruct (static_cast_integer_formula value1 value2 t Hv1 Hv2 H0 H1)
      as (z & Ez & Hz).
    exists z. rewrite (Hgen value1 value2 t H0 H1), Ez.
    split; [ reflexivity | ]. split; [ exact Hz | ].
    destruct (static_cast_int64_returns _ z Ez)
      as [(s & Hzero & ->) | (s & m & e & Hf & -> & _)].
    + left. now exists s.
    + right. now exists s, m, e.
  - rewrite (Hgen 10 20 0.5%float eq_refl eq_refl). reflexivity.
  - reflexivity.
Qed.

Lemma interpolate_integer_asymmetric_witness :
  interpolate_property integer_enabled (VInteger (-7)) (VInteger 100) 0.25
  = Returns (VInteger 95)
  /\ interpolate_property integer_enabled (VInteger int64_max) (VInteger int64_max) 0.5
     = Undefined.
Proof.
  pose proof (interpolate_integer_asymmetric integer_enabled eq_refl) as [Hf _].
  split.
  - apply (proj1 (Hf (-7) 100 0.25%float false 6685030696878080%positive (-46)
                     eq_refl eq_refl ltac:(vm_compute; reflexivity))).
    split; discriminate.
  - apply (proj2 (Hf int64_max int64_max 0.5%float false
                     6755399441055744%positive 11
                     eq_refl eq_refl ltac:(vm_compute; reflexivity))).
    vm_compute. intros [_ H]. now apply H.
Defined.

(** C9: [extrapolate_property] is the same visitor call without the boundary
    shortcut.  Inside the unit interval it agrees with
    [interpolate_property] on every pair of values; for every [t], inside or
    outside, it is the per-tag overload: a blend for two reals, the midpoint
    snap for a null [first], for two strings and for a string, a timestamp
    or an integer before a null, the scaled duration for two timestamps, the
    asymmetric formula for two integers, and [bad_get] for a real before a
    null.  [Real 0.0], [Real 10.0] at 1.5 give [Real 15.0], where the
    interpolator stops at [Real 10.0]; the strings A and B at 2 give B; [T0]
    and [T0 + 60 s] at 1.5 give [T0 + 90 s]. *)
Theorem extrapolate_property_no_shortcut (cfg : Config) :
  (forall (first second : PropertyValueT) (t : float),
      (0 <? t)%float = true -> (t <? 1)%float = true ->
      extrapolate_property cfg first second t
      = interpolate_property cfg first second t)
  /\ (forall (first second : PropertyValueT) (t : float),
      extrapolate_property cfg first second t
      = InterpolateProperties.apply_visitor cfg
          (InterpolateProperties.Build_visitor t second) first)
  /\ (forall a b t : float,
      extrapolate_property cfg (VReal a) (VReal b) t
      = Returns (VReal (linear_blend t a b)))
  /\ (forall (n : NullValue) (second : PropertyValueT) (t : float),
      extrapolate_property cfg (VNull n) second t
      = Returns (snap t (VNull n) second))
  /\ extrapolate_property cfg (VReal 0) (VReal 10) 1.5 = Returns (VReal 15)
  /\ interpolate_property cfg (VReal 0) (VReal 10) 1.5 = Returns (VReal 10)
  /\ (forall (s1 s2 : string) (t : float),
      extrapolate_property cfg (VString s1) (VString s2) t
      = Returns (VString (if (t <? 0.5)%float then s1 else s2)))
  /\ (forall (s1 : string) (n : NullValue) (t : float),
      extrapolate_property cfg (VString s1) (VNull n) t
      = Returns (if (t <? 0.5)%float then VString s1 else VNull n))
  /\ extrapolate_property cfg (VString "A") (VString "B") 2
     = Returns (VString "B")
  /\ extrapolate_property cfg (VString "A") (VString "B") (-1)
     = Returns (VString "A")
  /\ (forall (value1 value2 : Timestamp) (t : float)
             (s : bool) (m : positive) (e : Z),
      Prim2SF (int64_to_double (value2 - value1) * t) = S754_finite s m e ->
      (int64_min <= integer_part s m e <= int64_max ->
       extrapolate_property cfg (VTimestamp value1) (VTimestamp value2) t
       = Returns (VTimestamp (value1 + integer_part s m e)))
      /\ (~ int64_min <= integer_part s m e <= int64_max ->
          extrapolate_property cfg (VTimestamp value1) (VTimestamp value2) t
          = Undefined))
  /\ (forall (value1 value2 : Timestamp) (t : float) (s : bool),
      Prim2SF (int64_to_double (value2 - value1) * t) = S754_zero s ->
      extrapolate_property cfg (VTimestamp value1) (VTimestamp value2) t
      = Returns (VTimestamp value1))
  /\ (forall (value1 : Timestamp) (n : NullValue) (t : float),
      extrapolate_property cfg (VTimestamp value1) (VNull n) t
      = Returns (if (t <? 0.5)%float then VTimestamp value1 else VNull n))
  /\ (forall T0 : Timestamp,
      extrapolate_property cfg (VTimestamp T0) (VTimestamp (T0 + 60000000)) 1.5
      = Returns (VTimestamp (T0 + 90000000))
      /\ extrapolate_property cfg (VTimestamp T0) (VTimestamp (T0 + 60000000)) (-0.5)
         = Returns (VTimestamp (T0 - 30000000)))
  /\ (PROPERTY_VALUE_INCLUDES_INT cfg = true ->
      (forall (value1 value2 : Z) (t : float)
              (s : bool) (m : positive) (e : Z),
          Prim2SF ((1 - t) * int64_to_double value1
                   + (t + int64_to_double value2))%float = S754_finite s m e ->
          (int64_min <= integer_part s m e <= int64_max ->
           extrapolate_property cfg (VInteger value1) (VInteger value2) t
           = Returns (VInteger (integer_part s m e)))
          /\ (~ int64_min <= integer_part s m e <= int64_max ->
              extrapolate_property cfg (VInteger value1) (VInteger value2) t
              = Undefined))
      /\ (forall (value1 : Z) (n : NullValue) (t : float),
          extrapolate_property cfg (VInteger value1) (VNull n) t
          = Returns (if (t <? 0.5)%float then VInteger value1 else VNull n))
      /\ extrapolate_property cfg (VInteger 10) (VInteger 20) 1.5
         = Returns (VInteger 16))
  /\ (forall (a : float) (n : NullValue) (t : float),
      extrapolate_property cfg (VReal a) (VNull n) t = Throws bad_get).
Proof.
  assert (Hts : forall (value1 value2 : Timestamp) (t : float),
             extrapolate_property cfg (VTimestamp value1) (VTimestamp value2) t
             = (us <- static_cast_int64 (int64_to_double (value2 - value1) * t) ;;
                Returns (VTimestamp (value1 + us)))).
  { intros value1 value2 t. unfold extrapolate_property.
    apply apply_visitor_timestamps. }
  split; [ | split; [ | split; [ | split; [ | split; [ | split;
    [ | split; [ | split; [ | split; [ | split; [ | split; [ | split;
    [ | split; [ | split; [ | split ] ] ] ] ] ] ] ] ] ] ] ] ] ].
  - intros first second t H0 H1.
    now rewrite (interpolate_property_interior cfg first second t H0 H1).
  - reflexivity.
  - reflexivity.
  - intros n second t. unfold extrapolate_property, snap. simpl.
    unfold InterpolateProperties.visit_NullValue. simpl.
    now destruct (t <? 0.5)%float.
  - reflexivity.
  - reflexivity.
  - intros s1 s2 t. unfold extrapolate_property. simpl.
    unfold InterpolateProperties.visit_string. simpl.
    now destruct (t <? 0.5)%float.
  - intros s1 n t. unfold extrapolate_property. simpl.
    unfold InterpolateProperties.visit_string. simpl. reflexivity.
  - reflexivity.
  - reflexivity.
  - intros value1 value2 t s m e Hprod. rewrite Hts.
    destruct (static_cast_int64_finite _ s m e Hprod) as [Hin Hout].
    split; intros Hrange; [ now rewrite Hin | now rewrite Hout ].
  - intros value1 value2 t s Hprod.
    rewrite Hts, (static_cast_int64_zero _ s Hprod).
    unfold bind. do 2 f_equal. lia.
  - intros value1 n t. unfold extrapolate_property. simpl.
    unfold InterpolateProperties.visit_Timestamp. simpl. reflexivity.
  - intros T0. rewrite !Hts.
    replace (T0 + 60000000 - T0) with 60000000 by lia. split.
    + reflexivity.
    + change (static_cast_int64 (int64_to_double 60000000 * -0.5))
        with (Returns (-30000000) : outcome Z).
      unfold bind. do 2 f_equal.
  - intros Hint.
    assert (Hii : forall (value1 value2 : Z) (t : float),
               extrapolate_property cfg (VInteger value1) (VInteger value2) t
               = (result <- static_cast_int64
                              ((1 - t) * int64_to_double value1
                               + (t + int64_to_double value2))%float ;;
                  Returns (VInteger result))).
    { intros value1 value2 t. unfold extrapolate_property.
      now apply apply_visitor_integers. }
    split; [ | split ].
    + intros value1 value2 t s m e Hx. rewrite Hii.
      destruct (static_cast_int64_finite _ s m e Hx) as [Hin Hout].
      split; intros Hrange; [ now rewrite Hin | now rewrite Hout ].
    + intros value1 n t. unfold extrapolate_property. simpl. rewrite Hint.
      unfold InterpolateProperties.visit_int64. simpl. reflexivity.
    + rewrite Hii. reflexivity.
  - reflexivity.
Qed.

Lemma extrapolate_property_no_shortcut_witness :
  extrapolate_property integer_enabled (VInteger 10) (VInteger 20) 0.5
  = interpolate_property integer_enabled (VInteger 10) (VInteger 20) 0.5
  /\ extrapolate_property integer_enabled (VTimestamp 1000) (VTimestamp 1007) 2.5
     = Returns (VTimestamp 1017)
  /\ extrapolate_property integer_enabled (VInteger 10) (VInteger 20) (-1)
     = Returns (VInteger 39).
Proof.
  pose proof (extrapolate_property_no_shortcut integer_enabled)
    as (Hin & _ & _ & _ & _ & _ & _ & _ & _ & _ & Hts & _ & _ & _ & Hint & _).
  split; [ | split ].
  - apply (Hin (VInteger 10) (VInteger 20) 0.5%float); reflexivity.
  - apply (proj1 (Hts 1000 1007 2.5%float false 4925812092436480%positive (-48)
                      ltac:(vm_compute; reflexivity))).
    split; discriminate.
  - apply (proj1 (proj1 (Hint eq_refl) 10 20 (-1)%float false
                   5488762045857792%positive (-47)
                   ltac:(vm_compute; reflexivity))).
    split; discriminate.
Defined.
